(** * AALA report rows: extraction and normalisation (data_loader.py)

    A shallow embedding of the row pipeline of [data_loader.py]:
    [normalize_country], [clean_manufacturer], [normalize_manufacturer],
    [clean_car_line], [parse_country_percentage],
    [parse_us_canada_percentage] and the loop of [process_data]; of what
    [parse_pdf], [main] and [get_pdf_url_from_landing_page] do with the
    tables and links they are given; and of [get_flag] and the content
    bins of [app.py].

    Modelling conventions.
    - A Python [str] is a [string]; its characters are read as 7-bit ASCII.
      The character classes below ([\s], [\d], [A-Z], [a-z], [str.upper],
      [str.title], [str.strip], [str.split]) are Python's on that range.
      A character above 127 is taken as a caseless symbol that is neither
      white space nor a digit, which Python grants to most but not to all
      of them: a statement that reads such a character where Python looks
      for white space or a digit is made for ASCII text ([is_ascii],
      [is_visible]).
    - A cell of a row is a [pyval]: text, an [int] (the year that [parse_pdf]
      appends), or [None].
    - [int(...)] of a run of decimal digits is the unbounded integer in [Z].
      Python's [int] raises [ValueError] on more than 4300 digits
      ([int_max_str_digits]), and nothing in [process_data] or [main]
      catches it: a statement about what a whole run returns is made for
      rows on which that cannot happen ([row_in_scope]), and a statement
      about an integer read from a cell for a run of digits within that
      limit ([is_integer_text]).
    - A regular expression is embedded as the matcher it denotes; each one
      quotes its pattern.  All of them are deterministic: no alternative of
      a greedy repetition can succeed where the longest one fails.
    - [pd.DataFrame(processed)] is the list of the appended entries, in
      order; the field [Raw] keeps the row itself, of which Python's
      [str(row)] is the rendering.
    - [urljoin] is a parameter that may fail; the [except Exception] of
      [get_pdf_url_from_landing_page] turns its failure into [None]. *)

From Stdlib Require Import String Ascii List ZArith Lia Bool Arith.
From Stdlib Require Import DecimalString DecimalPos.
Import ListNotations.
Open Scope string_scope.

(** ** Python values *)

Inductive pyval : Type :=
| PNone
| PStr (s : string)
| PInt (z : Z).

(** [str(v)]. *)
Definition py_str (v : pyval) : string :=
  match v with
  | PNone => "None"
  | PStr s => s
  | PInt z => NilZero.string_of_int (Z.to_int z)
  end.

(** ** Characters and strings *)

Module Py.

Definition code (c : ascii) : nat := nat_of_ascii c.

Definition between (lo hi : nat) (c : ascii) : bool :=
  Nat.leb lo (code c) && Nat.leb (code c) hi.

(** [str.isspace] on ASCII: TAB, LF, VT, FF, CR, FS, GS, RS, US, SPACE. *)
Definition is_space (c : ascii) : bool := between 9 13 c || between 28 32 c.
Definition is_digit (c : ascii) : bool := between 48 57 c.
Definition is_upper (c : ascii) : bool := between 65 90 c.
Definition is_lower (c : ascii) : bool := between 97 122 c.
Definition is_alpha (c : ascii) : bool := is_upper c || is_lower c.

Definition upper_char (c : ascii) : ascii :=
  if is_lower c then ascii_of_nat (code c - 32) else c.
Definition lower_char (c : ascii) : ascii :=
  if is_upper c then ascii_of_nat (code c + 32) else c.

Fixpoint map_chars (f : ascii -> ascii) (s : string) : string :=
  match s with
  | EmptyString => EmptyString
  | String c t => String (f c) (map_chars f t)
  end.

(** [s.upper()] *)
Definition upper (s : string) : string := map_chars upper_char s.

(** [s.title()]: a letter that follows a letter is lowered, any other
    letter is raised. *)
Fixpoint title_from (prev_cased : bool) (s : string) : string :=
  match s with
  | EmptyString => EmptyString
  | String c t =>
      String (if prev_cased then lower_char c else upper_char c)
             (title_from (is_alpha c) t)
  end.
Definition title (s : string) : string := title_from false s.

Fixpoint lstrip (s : string) : string :=
  match s with
  | EmptyString => EmptyString
  | String c t => if is_space c then lstrip t else s
  end.

Fixpoint rstrip (s : string) : string :=
  match s with
  | EmptyString => EmptyString
  | String c t =>
      match rstrip t with
      | EmptyString => if is_space c then EmptyString else String c EmptyString
      | r => String c r
      end
  end.

(** [s.strip()] *)
Definition strip (s : string) : string := rstrip (lstrip s).

Definition newline : ascii := ascii_of_nat 10.

(** ['\n' in s] *)
Fixpoint has_newline (s : string) : bool :=
  match s with
  | EmptyString => false
  | String c t => (c =? newline)%char || has_newline t
  end.

(** [s.split('\n')[0]] *)
Fixpoint first_line (s : string) : string :=
  match s with
  | EmptyString => EmptyString
  | String c t => if (c =? newline)%char then EmptyString else String c (first_line t)
  end.

(** [s.split()]: the maximal runs of characters that are no white space. *)
Fixpoint split (s : string) : list string :=
  match s with
  | EmptyString => []
  | String c t =>
      if is_space c then split t
      else match t with
           | EmptyString => [String c EmptyString]
           | String c' _ =>
               if is_space c' then String c EmptyString :: split t
               else match split t with
                    | w :: ws => String c w :: ws
                    | [] => [String c EmptyString]
                    end
           end
  end.

(** [s.replace(a, b)] for single characters. *)
Definition replace_char (a b : ascii) (s : string) : string :=
  map_chars (fun c => if (c =? a)%char then b else c) s.

(** [s.startswith(p)] *)
Definition startswith (s p : string) : bool := String.prefix p s.

(** [needle in hay] for strings. *)
Fixpoint contains (needle hay : string) : bool :=
  String.prefix needle hay
  || match hay with
     | EmptyString => false
     | String _ t => contains needle t
     end.

(** [s in xs] for a set or list of strings. *)
Definition mem (s : string) (xs : list string) : bool :=
  existsb (String.eqb s) xs.

(** [d.get(k)] on a dict given by its items. *)
Fixpoint lookup (k : string) (d : list (string * string)) : option string :=
  match d with
  | [] => None
  | (k', v) :: d' => if k =? k' then Some v else lookup k d'
  end.

Fixpoint take_while (p : ascii -> bool) (s : string) : string :=
  match s with
  | EmptyString => EmptyString
  | String c t => if p c then String c (take_while p t) else EmptyString
  end.

Fixpoint drop_while (p : ascii -> bool) (s : string) : string :=
  match s with
  | EmptyString => EmptyString
  | String c t => if p c then drop_while p t else s
  end.

Definition head_is (p : ascii -> bool) (s : string) : bool :=
  match s with
  | EmptyString => false
  | String c _ => p c
  end.

Fixpoint all_chars (p : ascii -> bool) (s : string) : bool :=
  match s with
  | EmptyString => true
  | String c t => p c && all_chars p t
  end.

Fixpoint drop (n : nat) (s : string) : string :=
  match n, s with
  | S k, String _ t => drop k t
  | _, _ => s
  end.

Definition digit_value (c : ascii) : Z := Z.of_nat (code c - 48).

(** [int(ds)] for a run of decimal digits, most significant first. *)
Fixpoint int_from (acc : Z) (ds : string) : Z :=
  match ds with
  | EmptyString => acc
  | String c t => int_from (10 * acc + digit_value c)%Z t
  end.
Definition int (ds : string) : Z := int_from 0%Z ds.

(** [' '.join(words[-2:])], for a list of at least two words. *)
Fixpoint last_two (ws : list string) : string :=
  match ws with
  | [] => ""
  | [w] => w
  | [v; w] => v ++ " " ++ w
  | _ :: ws' => last_two ws'
  end.

End Py.

(** ** Country codes *)

(** [COUNTRY_MAPPING], by its items. *)
Definition COUNTRY_MAPPING : list (string * string) :=
  [ ("US", "United States"); ("USA", "United States"); ("U.S.", "United States");
    ("M", "Mexico"); ("MEX", "Mexico"); ("MX", "Mexico");
    ("CN", "Canada"); ("CAN", "Canada"); ("CA", "Canada");
    ("J", "Japan"); ("JPN", "Japan"); ("JP", "Japan");
    ("G", "Germany"); ("GER", "Germany"); ("GERMANY", "Germany");
    ("DE", "Denmark");
    ("K", "South Korea"); ("KOR", "South Korea"); ("KR", "South Korea");
    ("KOREA", "South Korea");
    ("UK", "United Kingdom"); ("GB", "United Kingdom");
    ("I", "Italy"); ("ITA", "Italy"); ("IT", "Italy");
    ("F", "France"); ("FRA", "France"); ("FR", "France");
    ("SW", "Sweden"); ("SWE", "Sweden"); ("SE", "Sweden");
    ("H", "Hungary"); ("HUN", "Hungary"); ("HU", "Hungary");
    ("AT", "Austria"); ("AUT", "Austria"); ("A", "Austria");
    ("BE", "Belgium"); ("BEL", "Belgium");
    ("CH", "China"); ("CHN", "China");
    ("CZ", "Czech Republic"); ("CZE", "Czech Republic");
    ("FN", "Finland"); ("FIN", "Finland"); ("FI", "Finland");
    ("SP", "Spain"); ("ESP", "Spain");
    ("SL", "Slovakia"); ("SVK", "Slovakia"); ("SK", "Slovakia");
    ("T", "Turkey"); ("TUR", "Turkey"); ("TR", "Turkey");
    ("BR", "Brazil"); ("BRA", "Brazil");
    ("SA", "South Africa"); ("RSA", "South Africa"); ("ZA", "South Africa");
    ("AF", "South Africa");
    ("AU", "Australia"); ("AUS", "Australia");
    ("PL", "Poland"); ("POL", "Poland");
    ("TH", "Thailand"); ("THA", "Thailand");
    ("ID", "Indonesia"); ("IDN", "Indonesia");
    ("IN", "India"); ("IND", "India");
    ("P", "Philippines");
    ("PO", "Portugal"); ("PRT", "Portugal"); ("PT", "Portugal");
    ("N", "Netherlands"); ("NLD", "Netherlands"); ("NL", "Netherlands");
    ("R", "Romania");
    ("RU", "Russia"); ("RUS", "Russia");
    ("SI", "Singapore");
    ("CU", "Cuba");
    ("OT", "Other");
    ("MYS", "Malaysia"); ("MY", "Malaysia");
    ("ARG", "Argentina"); ("AR", "Argentina");
    ("TW", "Taiwan"); ("TWN", "Taiwan");
    ("VNM", "Vietnam"); ("VN", "Vietnam");
    ("SERBIA", "Serbia") ].

Definition US_STATES : list string :=
  [ "AL"; "AK"; "AZ"; "AR"; "CA"; "CO"; "CT"; "DE"; "FL"; "GA"; "HI"; "ID";
    "IL"; "IN"; "IA"; "KS"; "KY"; "LA"; "ME"; "MD"; "MA"; "MI"; "MN"; "MS";
    "MO"; "MT"; "NE"; "NV"; "NH"; "NJ"; "NM"; "NY"; "NC"; "ND"; "OH"; "OK";
    "OR"; "PA"; "RI"; "SC"; "SD"; "TN"; "TX"; "UT"; "VT"; "VA"; "WA"; "WV";
    "WI"; "WY"; "DC" ].

Definition CA_PROVINCES : list string :=
  [ "ON"; "QC"; "BC"; "AB"; "MB"; "SK"; "NS"; "NB"; "NL"; "PE"; "YT"; "NT"; "NU" ].

Definition GERMAN_CITIES : list string :=
  [ "LEIPZIG"; "MUNICH"; "BERLIN"; "HAMBURG"; "STUTTGART"; "COLOGNE";
    "FRANKFURT"; "DUSSELDORF"; "BREMEN"; "HANNOVER"; "WOLFSBURG";
    "INGOLSTADT"; "REGENSBURG"; "RUSSELSHEIM"; "ZWICKAU" ].

Definition two_word_countries : list string :=
  [ "SOUTH KOREA"; "SOUTH AFRICA"; "UNITED STATES"; "UNITED KINGDOM";
    "CZECH REPUBLIC" ].

Definition known_countries : list string :=
  [ "UNITED STATES"; "MEXICO"; "CANADA"; "JAPAN"; "GERMANY"; "SOUTH KOREA";
    "UNITED KINGDOM"; "GREAT BRITAIN"; "ITALY"; "FRANCE"; "SWEDEN"; "HUNGARY";
    "AUSTRIA"; "BELGIUM"; "CHINA"; "CZECH REPUBLIC"; "FINLAND"; "SPAIN";
    "SLOVAKIA"; "TURKEY"; "BRAZIL"; "SOUTH AFRICA"; "AUSTRALIA"; "POLAND";
    "THAILAND"; "INDONESIA"; "MALAYSIA"; "ARGENTINA"; "TAIWAN"; "VIETNAM";
    "INDIA"; "PORTUGAL"; "NETHERLANDS"; "RUSSIA"; "SERBIA"; "DENMARK";
    "PHILIPPINES"; "ROMANIA"; "SINGAPORE"; "CUBA" ].

(** *** [re.sub(r'\s*\([^)]*\)', '', s)] *)

(** [[^)]*\)] at the head of [s]: the number of characters up to and
    including the first closing parenthesis. *)
Fixpoint to_rparen (s : string) : option nat :=
  match s with
  | EmptyString => None
  | String c t => if (c =? ")")%char then Some 1 else option_map S (to_rparen t)
  end.

(** [\s*\([^)]*\)] at the head of [s]: the length of the match. *)
Fixpoint paren_match (s : string) : option nat :=
  match s with
  | EmptyString => None
  | String c t =>
      if Py.is_space c then option_map S (paren_match t)
      else if (c =? "(")%char then option_map S (to_rparen t)
      else None
  end.

(** The scan of [re.sub]: [skip] characters of the current match are still
    to be dropped; otherwise a match is tried at the head, and the head is
    kept when there is none. *)
Fixpoint sub_paren_from (skip : nat) (s : string) : string :=
  match s with
  | EmptyString => EmptyString
  | String c t =>
      match skip with
      | S k => sub_paren_from k t
      | O =>
          match paren_match s with
          | Some (S k) => sub_paren_from k t
          | _ => String c (sub_paren_from 0 t)
          end
      end
  end.

Definition sub_paren (s : string) : string := sub_paren_from 0 s.

(** *** [normalize_country] *)

(** The cleaned [code]: parenthetical notes removed, first line only. *)
Definition country_code_text (original : string) : string :=
  let code := Py.strip (sub_paren original) in
  if Py.has_newline code then Py.strip (Py.first_line code) else code.

(** [for word in words: ...] *)
Fixpoint region_of_words (words : list string) : option string :=
  match words with
  | [] => None
  | word :: rest =>
      if Py.mem word US_STATES then Some "United States"
      else if Py.mem word CA_PROVINCES then Some "Canada"
      else if Py.mem word GERMAN_CITIES then Some "Germany"
      else region_of_words rest
  end.

Definition country_prefix (code_upper : string) : option string :=
  if Py.startswith code_upper "US," || Py.startswith code_upper "US " then Some "United States"
  else if Py.startswith code_upper "M," || Py.startswith code_upper "M " then Some "Mexico"
  else if Py.startswith code_upper "K," then Some "South Korea"
  else if Py.startswith code_upper "G," then Some "Germany"
  else None.

(** [if len(words) >= 2: ...] *)
Definition trailing_country (words : list string) : option string :=
  if Nat.leb 2 (List.length words) then
    match Py.lookup (List.last words "") COUNTRY_MAPPING with
    | Some name => Some name
    | None =>
        let last_two := Py.last_two words in
        if Py.mem last_two two_word_countries then Some (Py.title last_two)
        else None
    end
  else None.

(** [for country in known_countries: if country in code_upper: ...] *)
Fixpoint known_country_in (countries : list string) (code_upper : string) : option string :=
  match countries with
  | [] => None
  | country :: rest =>
      if Py.contains country code_upper then Some (Py.title country)
      else known_country_in rest code_upper
  end.

(** Everything [normalize_country] decides on [code_upper] alone, in the
    order of the source; [None] when no rule returns. *)
Definition resolve_upper (code_upper : string) : option string :=
  let words := Py.split (Py.replace_char "," " " code_upper) in
  match region_of_words words with
  | Some r => Some r
  | None =>
  match country_prefix code_upper with
  | Some r => Some r
  | None =>
  match trailing_country words with
  | Some r => Some r
  | None =>
  match Py.lookup code_upper COUNTRY_MAPPING with
  | Some r => Some r
  | None => known_country_in known_countries code_upper
  end end end end.

(** [normalize_country(code, context="")]; the result is Python's
    [None] or a [str]. *)
Definition normalize_country (code : pyval) (context : pyval) : option string :=
  match code with
  | PStr s =>
      let original := Py.strip s in
      if original =? "" then None
      else
        let code := country_code_text original in
        match resolve_upper (Py.upper code) with
        | Some r => Some r
        | None => if Nat.ltb 3 (String.length code) then Some (Py.title code) else Some code
        end
  | _ => None
  end.

(** ** Manufacturer names *)

(** [MANUFACTURER_NORMALIZATION], by its items in insertion order. *)
Definition MANUFACTURER_NORMALIZATION : list (string * string) :=
  [ ("GM LLC", "General Motors");
    ("General Motors LLC", "General Motors");
    ("FCA", "Stellantis");
    ("Fiat Chrysler", "Stellantis");
    ("Honda Motor Co.,", "Honda");
    ("Honda Motor Co., Ltd.", "Honda");
    ("Hyundai Motor", "Hyundai");
    ("Hyundai Motor Company", "Hyundai");
    ("Jaguar Land Rover", "Jaguar Land Rover");
    ("JaguaLr iLmaintedd Rover", "Jaguar Land Rover");
    ("Jaguar Land Rover Limited", "Jaguar Land Rover");
    ("Mazda Motor", "Mazda");
    ("Mazda Motor Corporation", "Mazda");
    ("Mitsubishi Motors", "Mitsubishi");
    ("Mitsubishi Motors Corporation", "Mitsubishi");
    ("Nissan North", "Nissan");
    ("Nissan North America,", "Nissan");
    ("Nissan North America, Inc", "Nissan");
    ("Bugatti Automobiles", "Bugatti");
    ("Bugatti Automobiles S.A.S.", "Bugatti");
    ("Rolls-Royce Motor", "Rolls-Royce");
    ("Tesla Inc.", "Tesla");
    ("Lotus Cars Ltd.", "Lotus");
    ("Lucid USA, Inc.", "Lucid");
    ("Kia Motors", "Kia") ].

Definition INVALID_MANUFACTURERS : list string :=
  [ "Limited"; "XC90 Aut (8vxl) FWD + ERAD (T8 AWD)"; "" ].

Definition known_manufacturers : list string :=
  map fst MANUFACTURER_NORMALIZATION ++
  [ "Audi"; "BMW AG"; "Bentley"; "Ford Motor Company"; "Porsche AG";
    "Subaru"; "Toyota"; "Volkswagen"; "Volvo"; "Mercedes-Benz USA";
    "Lamborghini"; "Polestar" ].

(** [\s+[A-Z][a-z]+$] *)
Definition legend_tail (s : string) : bool :=
  Py.head_is Py.is_space s
  && match Py.lstrip s with
     | String c t => Py.is_upper c && Py.head_is Py.is_lower t && Py.all_chars Py.is_lower t
     | EmptyString => false
     end.

(** [re.match(r'^[A-Z]{1,2}\s+[A-Z][a-z]+$', s)], for [s] without a line
    feed: two capitals are tried before one. *)
Definition legend_entry (s : string) : bool :=
  match s with
  | String a t =>
      Py.is_upper a
      && (match t with
          | String b t' => Py.is_upper b && legend_tail t'
          | EmptyString => false
          end
          || legend_tail t)
  | EmptyString => false
  end.

(** [re.match(r'^[A-Z0-9]+\s+(Aut|AWD|FWD|RWD)', s)] *)
Definition model_descriptor (s : string) : bool :=
  let cap c := Py.is_upper c || Py.is_digit c in
  let r := Py.drop_while cap s in
  Py.head_is cap s && Py.head_is Py.is_space r
  && (let r' := Py.lstrip r in
      Py.startswith r' "Aut" || Py.startswith r' "AWD"
      || Py.startswith r' "FWD" || Py.startswith r' "RWD").

(** [\d+%|MPV|PC\s|Truck] at the head of [s]. *)
Definition data_pattern_here (s : string) : bool :=
  (Py.head_is Py.is_digit s && Py.startswith (Py.drop_while Py.is_digit s) "%")
  || Py.startswith s "MPV"
  || (Py.startswith s "PC" && Py.head_is Py.is_space (Py.drop 2 s))
  || Py.startswith s "Truck".

(** [re.search(r'\d+%|MPV|PC\s|Truck', s)] *)
Fixpoint data_pattern (s : string) : bool :=
  data_pattern_here s
  || match s with
     | EmptyString => false
     | String _ t => data_pattern t
     end.

(** [for mfg in known_manufacturers: if first_line.startswith(mfg): return mfg] *)
Fixpoint known_prefix (known : list string) (first_line : string) : option string :=
  match known with
  | [] => None
  | mfg :: rest =>
      if Py.startswith first_line mfg then Some mfg else known_prefix rest first_line
  end.

(** [clean_manufacturer(raw_manufacturer)] *)
Definition clean_manufacturer (raw_manufacturer : pyval) : option string :=
  match raw_manufacturer with
  | PStr raw =>
      if raw =? "" then None
      else
        let first_line := Py.strip (Py.first_line raw) in
        if legend_entry first_line then None
        else if Py.mem first_line INVALID_MANUFACTURERS then None
        else if model_descriptor first_line then None
        else if data_pattern first_line then
          match known_prefix known_manufacturers first_line with
          | Some mfg => Some mfg
          | None =>
              match Py.split first_line with
              | w :: _ => Some w
              | [] => None
              end
          end
        else Some first_line
  | _ => None
  end.

(** [for pattern, normalized in MANUFACTURER_NORMALIZATION.items(): ...] *)
Fixpoint normalized_variant (items : list (string * string)) (manufacturer : string)
  : option string :=
  match items with
  | [] => None
  | (pattern, normalized) :: rest =>
      if Py.startswith manufacturer pattern || (manufacturer =? pattern) then Some normalized
      else normalized_variant rest manufacturer
  end.

(** [normalize_manufacturer(manufacturer)], on what [clean_manufacturer]
    returned. *)
Definition normalize_manufacturer (manufacturer : option string) : option string :=
  match manufacturer with
  | None => None
  | Some m =>
      if m =? "" then None
      else
        match normalized_variant MANUFACTURER_NORMALIZATION m with
        | Some n => Some n
        | None =>
            if Py.startswith m "Subaru Subaru" then Some "Subaru"
            else if Py.startswith m "Tesla Inc. Tesla" then Some "Tesla"
            else Some m
        end
  end.

(** [clean_car_line(raw_car_line)] *)
Definition clean_car_line (raw_car_line : pyval) : option string :=
  match raw_car_line with
  | PStr raw =>
      if raw =? "" then None
      else
        let first_line := Py.strip (Py.first_line raw) in
        if first_line =? "" then None else Some first_line
  | _ => None
  end.

(** ** Percentages *)

(** [re.match(r'(\d+)\s*%\s*([A-Za-z]+)?', value)]: groups 1 and 2. *)
Definition match_country_percentage (value : string) : option (string * option string) :=
  let digits := Py.take_while Py.is_digit value in
  if digits =? "" then None
  else
    match Py.lstrip (Py.drop_while Py.is_digit value) with
    | String "%" rest =>
        let letters := Py.take_while Py.is_alpha (Py.lstrip rest) in
        Some (digits, if letters =? "" then None else Some letters)
    | _ => None
    end.

(** [parse_country_percentage(value)] *)
Definition parse_country_percentage (value : pyval) : option Z * option string :=
  match value with
  | PStr v =>
      if v =? "" then (None, None)
      else
        let v := Py.strip v in
        if v =? "" then (None, None)
        else
          let v := Py.strip (Py.first_line v) in
          match match_country_percentage v with
          | Some (g1, g2) => (Some (Py.int g1), option_map Py.upper g2)
          | None => (None, None)
          end
  | _ => (None, None)
  end.

(** [parse_us_canada_percentage(value)]; the pattern is [(\d+)\s*%?]. *)
Definition parse_us_canada_percentage (value : pyval) : Z :=
  match value with
  | PStr v =>
      if v =? "" then 0%Z
      else
        let digits := Py.take_while Py.is_digit (Py.strip v) in
        if digits =? "" then 0%Z else Py.int digits
  | _ => 0%Z
  end.

(** ** Rows *)

Definition row : Type := list pyval.

(** One dict appended to [processed]. *)
Record entry : Type := {
  Year : pyval;
  Manufacturer : option string;
  Car_Line : pyval;
  Pct_US_Canada : Z;
  Primary_Country : string;
  Primary_Pct : Z;
  Secondary_Country : string;
  Secondary_Pct : Z;
  Engine_Source : pyval;
  Transmission_Source : pyval;
  Assembly_Country : pyval;
  Raw : row
}.

(** The codes of [LEGEND_PATTERNS]; the pattern of a code [XX] is [^XX\s]. *)
Definition LEGEND_PATTERNS : list string :=
  [ "AU"; "AT"; "BE"; "BR"; "CH"; "CU"; "CN";
    "CZ"; "DE"; "F"; "FN"; "G"; "H"; "I";
    "ID"; "IN"; "J"; "K"; "M"; "N"; "OT";
    "P"; "PL"; "PO"; "R"; "RU"; "SA"; "SI";
    "SL"; "SP"; "SW"; "T"; "TH"; "UK"; "US" ].

(** [re.match(pattern, text)] for the pattern of [code]. *)
Definition legend_pattern_matches (code text : string) : bool :=
  Py.startswith text code && Py.head_is Py.is_space (Py.drop (String.length code) text).

(** The loop that sets [is_legend]. *)
Definition is_legend (raw_manufacturer : pyval) : bool :=
  existsb (fun pattern => legend_pattern_matches pattern (py_str raw_manufacturer))
          LEGEND_PATTERNS.

(** [row[i]] for [0 <= i], and [row[-k]] as [row[len(row) - k]]; the length
    guard of the loop keeps every index used there in range. *)
Definition cell (r : row) (i : nat) : pyval := nth i r (PStr "").
Definition cell_from_end (r : row) (k : nat) : pyval := cell r (List.length r - k).

(** [x if x else y] on the result of [normalize_country]. *)
Definition or_raw (norm : option string) (raw : pyval) : pyval :=
  match norm with
  | Some s => if s =? "" then raw else PStr s
  | None => raw
  end.

Definition or_empty (name : option string) : string :=
  match name with
  | Some s => s
  | None => ""
  end.

Definition or_zero (pct : option Z) : Z :=
  match pct with
  | Some n => n
  | None => 0%Z
  end.

(** What one turn of the loop of [process_data] does with a row: it leaves
    at one of the three [continue]s, or appends an entry. *)
Inductive outcome : Type :=
| TooShort
| LegendEntry
| NoManufacturer
| Appended (e : entry).

Definition process_row (r : row) : outcome :=
  if Nat.ltb (List.length r) 8 then TooShort
  else
    let year := cell_from_end r 1 in
    let raw_manufacturer := cell r 0 in
    if is_legend raw_manufacturer then LegendEntry
    else
      match clean_manufacturer raw_manufacturer with
      | None => NoManufacturer
      | Some "" => NoManufacturer
      | Some cleaned =>
          let manufacturer := normalize_manufacturer (Some cleaned) in
          let context := match manufacturer with Some m => PStr m | None => PNone end in
          let raw_car_line := if Nat.ltb 2 (List.length r) then cell r 2 else cell r 1 in
          let car_line :=
            match clean_car_line raw_car_line with
            | Some c => PStr c
            | None => if Nat.ltb 1 (List.length r) then cell r 1 else PStr ""
            end in
          let percent_content_raw := if Nat.ltb 4 (List.length r) then cell r 4 else PStr "0" in
          let percent_us_canada := parse_us_canada_percentage percent_content_raw in
          let country1_raw := if Nat.ltb 5 (List.length r) then cell r 5 else PStr "" in
          let country2_raw := if Nat.ltb 6 (List.length r) then cell r 6 else PStr "" in
          let '(pct1, code1) := parse_country_percentage country1_raw in
          let '(pct2, code2) := parse_country_percentage country2_raw in
          let name_of code :=
            match code with
            | Some c => if c =? "" then None else normalize_country (PStr c) context
            | None => None
            end in
          let country1_name := name_of code1 in
          let country2_name := name_of code2 in
          let engine := if Nat.ltb 7 (List.length r) then cell r 7 else PStr "" in
          let trans := if Nat.ltb 9 (List.length r) then cell r 9 else PStr "" in
          let assembly := if Nat.ltb 3 (List.length r) then cell_from_end r 3 else PStr "" in
          let engine_norm := normalize_country engine context in
          let trans_norm := normalize_country trans context in
          let assembly_norm := normalize_country assembly context in
          Appended
            {| Year := year;
               Manufacturer := manufacturer;
               Car_Line := car_line;
               Pct_US_Canada := percent_us_canada;
               Primary_Country := or_empty country1_name;
               Primary_Pct := or_zero pct1;
               Secondary_Country := or_empty country2_name;
               Secondary_Pct := or_zero pct2;
               Engine_Source := or_raw engine_norm engine;
               Transmission_Source := or_raw trans_norm trans;
               Assembly_Country := or_raw assembly_norm assembly;
               Raw := r |}
      end.

(** [process_data(raw_data)]: the entries appended, in the order of the rows. *)
Definition process_data (raw_data : list row) : list entry :=
  flat_map (fun r => match process_row r with Appended e => [e] | _ => [] end) raw_data.

(** ** Reading the tables of a report ([parse_pdf]) *)

(** A table as [page.extract_table()] returns it: rows of cells, a cell
    being a text or [None]. *)
Definition raw_table : Type := list (list (option string)).

(** [cell.strip() if cell else ""] *)
Definition clean_cell (c : option string) : string :=
  match c with
  | Some s => if s =? "" then "" else Py.strip s
  | None => ""
  end.

(** [any(cleaned_row)] *)
Definition any_text (cleaned_row : list string) : bool :=
  existsb (fun s => negb (s =? "")) cleaned_row.

(** One turn of the loop over the rows of a table: the row appended to
    [data], or [None] at a [continue].  On the empty row [not any(...)]
    holds, and [cleaned_row[0]] is not evaluated. *)
Definition parse_row (year : Z) (r : list (option string)) : option row :=
  let cleaned_row := map clean_cell r in
  match cleaned_row with
  | [] => None
  | first :: _ =>
      if negb (any_text cleaned_row)
         || Py.contains "Manufacturer" first
         || Py.contains "Car Line" first
      then None
      else if first =? "" then None
      else Some (map PStr cleaned_row ++ [PInt year])%list
  end.

(** [parse_pdf(pdf_path, year)] on the pages of the opened file, each with
    the table [extract_table()] finds on it, if any; [if table:] skips
    [None] and the empty table. *)
Definition parse_pdf (pages : list (option raw_table)) (year : Z) : list row :=
  flat_map
    (fun page =>
       match page with
       | Some table =>
           flat_map (fun r => match parse_row year r with Some x => [x] | None => [] end)
                    table
       | None => []
       end)
    pages.

(** The data path of [main]: the reports that are on disk, in the order of
    [YEAR_URLS], are parsed and their rows put end to end;
    [process_data] runs when there is a row at all. *)
Definition all_raw_data (reports : list (Z * list (option raw_table))) : list row :=
  flat_map (fun report => parse_pdf (snd report) (fst report)) reports.

Definition main (reports : list (Z * list (option raw_table))) : option (list entry) :=
  match all_raw_data reports with
  | [] => None
  | rows => Some (process_data rows)
  end.

(** ** Choosing the link of a report ([get_pdf_url_from_landing_page]) *)

(** [t.endswith(suffix)] *)
Fixpoint ends_with (suffix t : string) : bool :=
  (t =? suffix)
  || match t with
     | EmptyString => false
     | String _ t' => ends_with suffix t'
     end.

(** [re.compile(r'\.pdf$')] searched in an [href]: the text ends in [.pdf],
    or in [.pdf] and one line feed. *)
Definition is_pdf_href (href : string) : bool :=
  ends_with ".pdf" href || ends_with (".pdf" ++ String Py.newline "") href.

(** [for link in pdf_links: if 'AALA' in href or 'Alphabetical' in href: ...] *)
Fixpoint report_link (pdf_links : list string) : option string :=
  match pdf_links with
  | [] => None
  | href :: rest =>
      if Py.contains "AALA" href || Py.contains "Alphabetical" href then Some href
      else report_link rest
  end.

Section Landing.

(** [urllib.parse.urljoin], left uninterpreted; [None] when it raises (it
    does on an [href] with an unbalanced bracket in its host part). *)
Variable urljoin : string -> string -> option string.

(** [get_pdf_url_from_landing_page] on what the request gave: [None] when
    the page could not be read, and otherwise the [href]s of its [a] tags
    in document order.  An exception raised on the way is caught by the
    [except Exception] of the function, which returns [None]: the link
    chosen is the only one [urljoin] is called on. *)
Definition get_pdf_url_from_landing_page (page : option (list string)) : option string :=
  match page with
  | None => None
  | Some hrefs =>
      let pdf_links := filter is_pdf_href hrefs in
      match report_link pdf_links with
      | Some href => urljoin "https://www.nhtsa.gov" href
      | None =>
          match pdf_links with
          | first :: _ => urljoin "https://www.nhtsa.gov" first
          | [] => None
          end
      end
  end.

End Landing.

(** ** The report front end ([app.py]) *)

(** [COUNTRY_FLAGS], by its items; a flag is a text that is only compared
    and printed. *)
Definition COUNTRY_FLAGS : list (string * string) :=
  [ ("United States", "🇺🇸"); ("Mexico", "🇲🇽"); ("Canada", "🇨🇦");
    ("Japan", "🇯🇵"); ("Germany", "🇩🇪"); ("South Korea", "🇰🇷");
    ("United Kingdom", "🇬🇧"); ("Italy", "🇮🇹"); ("France", "🇫🇷");
    ("Sweden", "🇸🇪"); ("Hungary", "🇭🇺"); ("Austria", "🇦🇹");
    ("Belgium", "🇧🇪"); ("China", "🇨🇳"); ("Czech Republic", "🇨🇿");
    ("Finland", "🇫🇮"); ("Spain", "🇪🇸"); ("Slovakia", "🇸🇰");
    ("Turkey", "🇹🇷"); ("Brazil", "🇧🇷"); ("South Africa", "🇿🇦");
    ("Australia", "🇦🇺"); ("Poland", "🇵🇱"); ("Thailand", "🇹🇭");
    ("Indonesia", "🇮🇩"); ("Malaysia", "🇲🇾"); ("Argentina", "🇦🇷");
    ("Taiwan", "🇹🇼"); ("Vietnam", "🇻🇳"); ("India", "🇮🇳");
    ("Portugal", "🇵🇹"); ("Netherlands", "🇳🇱"); ("Russia", "🇷🇺");
    ("Serbia", "🇷🇸"); ("Denmark", "🇩🇰"); ("Philippines", "🇵🇭");
    ("Romania", "🇷🇴"); ("Singapore", "🇸🇬"); ("Cuba", "🇨🇺");
    ("Other", "🌍") ].

(** [get_flag(country)]; [None] is a missing value ([pd.isna]). *)
Definition get_flag (country : option string) : string :=
  match country with
  | None => ""
  | Some c =>
      if c =? "" then ""
      else match Py.lookup c COUNTRY_FLAGS with
           | Some flag => flag
           | None => "🌍"
           end
  end.

(** The label [pd.cut] gives an integer percentage for
    [bins = [0, 10, 25, 50, 75, 100]] with [include_lowest=True]: the
    intervals are closed on the right, the first one on the left too, and
    a value outside them has no label. *)
Definition content_bin (pct : Z) : option string :=
  if (pct <? 0)%Z then None
  else if (pct <=? 10)%Z then Some "0-10%"
  else if (pct <=? 25)%Z then Some "10-25%"
  else if (pct <=? 50)%Z then Some "25-50%"
  else if (pct <=? 75)%Z then Some "50-75%"
  else if (pct <=? 100)%Z then Some "75-100%"
  else None.

(** ** Vocabulary of the statements *)

(** The canonical country names: the values of [COUNTRY_MAPPING] and the
    names [normalize_country] returns from [known_countries]. *)
Definition canonical_countries : list string :=
  map snd COUNTRY_MAPPING ++ map Py.title known_countries.





(** A run of decimal digits, a run of letters. *)
Definition is_digits (ds : string) : bool :=
  negb (ds =? "") && Py.all_chars Py.is_digit ds.
Definition is_letters (cs : string) : bool :=
  negb (cs =? "") && Py.all_chars Py.is_alpha cs.

(** The decimal numeral of an integer. *)
Definition numeral (n : Z) : string := py_str (PInt n).

(** [normalize_country] read on the upper-case spelling of [name]: the
    text is not blank, and either a rule on [code_upper] returns [name] or
    none does, the text is longer than three characters and its title case
    is [name]. *)
Definition resolves_by_case_fold (name : string) : bool :=
  let original := Py.strip (Py.upper name) in
  negb (original =? "")
  && (let code_upper := country_code_text original in
      match resolve_upper code_upper with
      | Some r => r =? name
      | None => Nat.ltb 3 (String.length code_upper) && (Py.title code_upper =? name)
      end).

(** One or two capital letters. *)
Definition is_short_code (code : string) : bool :=
  match code with
  | String a EmptyString => Py.is_upper a
  | String a (String b EmptyString) => Py.is_upper a && Py.is_upper b
  | _ => false
  end.

(** A capital letter followed by one or more small letters. *)
Definition is_capitalised_word (name : string) : bool :=
  match name with
  | String c rest => Py.is_upper c && negb (rest =? "") && Py.all_chars Py.is_lower rest
  | EmptyString => false
  end.

(** A run of white space within one line. *)
Definition is_blanks (sep : string) : bool :=
  negb (sep =? "")
  && Py.all_chars (fun c => Py.is_space c && negb (c =? Py.newline)%char) sep.

(** A character of the ASCII range; a text of such characters. *)
Definition is_ascii_char (c : ascii) : bool := Nat.ltb (Py.code c) 128.
Definition is_ascii (s : string) : bool := Py.all_chars is_ascii_char s.

(** An ASCII character that is no white space. *)
Definition is_visible (c : ascii) : bool := is_ascii_char c && negb (Py.is_space c).

(** White space within one line, possibly none. *)
Definition is_blank_run (s : string) : bool :=
  Py.all_chars (fun c => Py.is_space c && negb (c =? Py.newline)%char) s.

(** The text ends here, or goes on with a character of the kind [p]. *)
Definition ends_or_starts (p : ascii -> bool) (s : string) : bool :=
  match s with
  | EmptyString => true
  | String c _ => p c
  end.


(** The run of digits ends here: what follows, if anything, starts with an
    ASCII character that is no digit. *)
Definition no_digit_follows (s : string) : bool :=
  ends_or_starts (fun c => is_ascii_char c && negb (Py.is_digit c)) s.

(** No integer leads the text: it is empty or starts with a visible
    character that is no digit. *)
Definition no_integer_leads (s : string) : bool :=
  ends_or_starts (fun c => is_visible c && negb (Py.is_digit c)) s.

(** No percent sign comes next: the line ends, or goes on with a visible
    character that is neither a digit nor the percent sign. *)
Definition no_percent_follows (s : string) : bool :=
  ends_or_starts
    (fun c => (c =? Py.newline)%char
              || (is_visible c && negb (Py.is_digit c) && negb (c =? "%")%char)) s.

(** No country code comes next: the line ends, or goes on with a visible
    character that is no letter. *)
Definition no_code_follows (s : string) : bool :=
  ends_or_starts
    (fun c => (c =? Py.newline)%char || (is_visible c && negb (Py.is_alpha c))) s.



(** The default of [sys.get_int_max_str_digits()]: [int] raises
    [ValueError] on a text of more decimal digits. *)
Definition int_max_str_digits : nat := 4300.

(** The integer that a run of decimal digits writes, with or without
    leading zeros, as the Standard Library reads it. *)
Definition decimal_value (ds : string) : Z :=
  match NilEmpty.uint_of_string ds with
  | Some d => Z.of_uint d
  | None => 0%Z
  end.

(** A run of decimal digits that [int] accepts. *)
Definition is_integer_text (ds : string) : bool :=
  is_digits ds && Nat.leb (String.length ds) int_max_str_digits.


(** The same canonical name for any two variants of
    [MANUFACTURER_NORMALIZATION] of which one starts with the other. *)
Definition variants_agree (items : list (string * string)) : bool :=
  forallb
    (fun p =>
       forallb
         (fun q =>
            negb (String.prefix (fst p) (fst q) || String.prefix (fst q) (fst p))
            || (snd p =? snd q))
         items)
    items.

(** The keys of [COUNTRY_MAPPING] that are also the abbreviation of a state
    or of a province. *)
Definition shadowed_codes : list string := ["CA"; "DE"; "ID"; "IN"; "AR"; "SK"; "NL"].

(** What a key [k] of [COUNTRY_MAPPING] with value [v] resolves to: the
    abbreviation rules come before the table. *)
Definition code_resolution (k v : string) : string :=
  if Py.mem k US_STATES then "United States"
  else if Py.mem k CA_PROVINCES then "Canada"
  else v.

(** [normalize_country] read on the key of an item of [COUNTRY_MAPPING]:
    a rule on [code_upper] returns [code_resolution], which differs from
    the value of the item exactly for the [shadowed_codes]. *)
Definition code_resolves (item : string * string) : bool :=
  let k := fst item in
  let v := snd item in
  negb (Py.strip k =? "")
  && match resolve_upper (country_code_text (Py.strip k)) with
     | Some r => r =? code_resolution k v
     | None => false
     end
  && Bool.eqb (negb (code_resolution k v =? v)) (Py.mem k shadowed_codes).

(** *** Rows of the scenarios *)

Definition corolla_row : row :=
  [ PStr "Toyota"; PStr "Corolla"; PStr "Corolla"; PStr "PC"; PStr "75%";
    PStr "15%G"; PStr "10%J"; PStr "G"; PStr ""; PStr "J"; PStr "";
    PStr "United States"; PStr ""; PInt 2023 ].

Definition corolla_entry : entry :=
  {| Year := PInt 2023;
     Manufacturer := Some "Toyota";
     Car_Line := PStr "Corolla";
     Pct_US_Canada := 75;
     Primary_Country := "Germany";
     Primary_Pct := 15;
     Secondary_Country := "Japan";
     Secondary_Pct := 10;
     Engine_Source := PStr "Germany";
     Transmission_Source := PStr "Japan";
     Assembly_Country := PStr "United States";
     Raw := corolla_row |}.

(** Percentages above one hundred in columns 4, 5 and 6. *)
Definition over_row : row :=
  [ PStr "Toyota"; PStr "Corolla"; PStr "Corolla"; PStr "PC"; PStr "150%";
    PStr "120%G"; PStr "101%J"; PStr "G"; PStr ""; PStr "J"; PStr "";
    PStr "United States"; PStr ""; PInt 2023 ].



(** A line of the key of the report, as a table row of full width. *)
Definition key_row : row :=
  [ PStr "G Germany"; PStr ""; PStr ""; PStr ""; PStr ""; PStr ""; PStr "";
    PStr ""; PStr ""; PStr ""; PStr ""; PStr ""; PStr ""; PInt 2023 ].

(** Percentages without a country code in columns 5 and 6. *)
Definition bare_percent_row : row :=
  [ PStr "Toyota"; PStr "Corolla"; PStr "Corolla"; PStr "PC"; PStr "75%";
    PStr "15%"; PStr "15%"; PStr "G"; PStr ""; PStr "J"; PStr "";
    PStr "United States"; PStr ""; PInt 2023 ].

(** Percentages written with white space and a note, none with a code. *)
Definition padded_percent_row : row :=
  [ PStr "Toyota"; PStr "Corolla"; PStr "  Corolla LE  "; PStr "PC"; PStr " 75 %";
    PStr " 15 % (est.)"; PStr "15% "; PStr "G"; PStr ""; PStr "J"; PStr "";
    PStr "United States"; PStr ""; PInt 2023 ].


(** The link [get_pdf_url_from_landing_page] goes for: the first PDF link
    that names the report, and the first PDF link when none does. *)
Definition is_report_href (href : string) : bool :=
  Py.contains "AALA" href || Py.contains "Alphabetical" href.
Definition chosen_link (hrefs : list string) : option string :=
  match filter is_report_href (filter is_pdf_href hrefs) with
  | href :: _ => Some href
  | [] => hd_error (filter is_pdf_href hrefs)
  end.

(** * Properties *)

(** ** Characters *)

Ltac by_cases_on_char c :=
  destruct c as [[] [] [] [] [] [] [] []]; vm_compute; try reflexivity; try discriminate.

Lemma space_upper_char c : Py.is_space (Py.upper_char c) = Py.is_space c.
Proof. by_cases_on_char c. Qed.

Lemma alpha_upper_char c : Py.is_alpha (Py.upper_char c) = Py.is_alpha c.
Proof. by_cases_on_char c. Qed.

Lemma lower_upper_char c : Py.lower_char (Py.upper_char c) = Py.lower_char c.
Proof. by_cases_on_char c. Qed.

Lemma upper_upper_char c : Py.upper_char (Py.upper_char c) = Py.upper_char c.
Proof. by_cases_on_char c. Qed.

Lemma rparen_upper_char c : (Py.upper_char c =? ")")%char = (c =? ")")%char.
Proof. by_cases_on_char c. Qed.

Lemma lparen_upper_char c : (Py.upper_char c =? "(")%char = (c =? "(")%char.
Proof. by_cases_on_char c. Qed.

Lemma newline_upper_char c : (Py.upper_char c =? Py.newline)%char = (c =? Py.newline)%char.
Proof. by_cases_on_char c. Qed.

Lemma digit_not_space c : Py.is_digit c = true -> Py.is_space c = false.
Proof. by_cases_on_char c. Qed.

Lemma alpha_not_space c : Py.is_alpha c = true -> Py.is_space c = false.
Proof. by_cases_on_char c. Qed.

Lemma newline_is_space c : (c =? Py.newline)%char = true -> Py.is_space c = true.
Proof. by_cases_on_char c. Qed.

Lemma digit_value_nonneg c : (0 <= Py.digit_value c)%Z.
Proof. unfold Py.digit_value. lia. Qed.

(** ** Stripping *)

Lemma lstrip_spaces pre s :
  Py.all_chars Py.is_space pre = true -> Py.lstrip (pre ++ s) = Py.lstrip s.
Proof.
  induction pre as [|c pre IH]; simpl; intros H; [reflexivity|].
  apply andb_true_iff in H as [Hc Hpre]. rewrite Hc. auto.
Qed.

Lemma rstrip_all_space post :
  Py.all_chars Py.is_space post = true -> Py.rstrip post = "".
Proof.
  induction post as [|c post IH]; simpl; intros H; [reflexivity|].
  apply andb_true_iff in H as [Hc Hpost]. now rewrite IH, Hc.
Qed.

Lemma rstrip_spaces s post :
  Py.all_chars Py.is_space post = true -> Py.rstrip (s ++ post) = Py.rstrip s.
Proof.
  intros H. induction s as [|c s IH]; simpl.
  - now apply rstrip_all_space.
  - now rewrite IH.
Qed.

Lemma rstrip_snoc s c :
  Py.is_space c = false -> Py.rstrip (s ++ String c "") = s ++ String c "".
Proof.
  intros Hc. induction s as [|a s IH]; simpl.
  - now rewrite Hc.
  - rewrite IH. destruct s; reflexivity.
Qed.


Lemma rstrip_no_space s :
  Py.all_chars (fun c => negb (Py.is_space c)) s = true -> Py.rstrip s = s.
Proof.
  induction s as [|c s IH]; simpl; intros H; [reflexivity|].
  apply andb_true_iff in H as [Hc Hs]. rewrite (IH Hs).
  apply negb_true_iff in Hc. rewrite Hc. destruct s; reflexivity.
Qed.

Lemma strip_no_space s :
  Py.all_chars (fun c => negb (Py.is_space c)) s = true -> Py.strip s = s.
Proof.
  intros H. unfold Py.strip.
  destruct s as [|c s]; [reflexivity|].
  assert (Hc : Py.is_space c = false).
  { simpl in H. apply andb_true_iff in H as [Hc _]. now apply negb_true_iff. }
  simpl Py.lstrip. rewrite Hc. now apply rstrip_no_space.
Qed.

Lemma first_line_no_space s :
  Py.all_chars (fun c => negb (Py.is_space c)) s = true -> Py.first_line s = s.
Proof.
  induction s as [|c s IH]; simpl; intros H; [reflexivity|].
  apply andb_true_iff in H as [Hc Hs]. apply negb_true_iff in Hc.
  destruct (c =? Py.newline)%char eqn:E.
  - apply newline_is_space in E. congruence.
  - now rewrite IH.
Qed.

Lemma all_chars_app p s t :
  Py.all_chars p (s ++ t) = Py.all_chars p s && Py.all_chars p t.
Proof.
  induction s as [|c s IH]; simpl; [reflexivity|]. now rewrite IH, andb_assoc.
Qed.

Lemma all_chars_weaken (p q : ascii -> bool) s :
  (forall c, p c = true -> q c = true) ->
  Py.all_chars p s = true -> Py.all_chars q s = true.
Proof.
  intros Hpq. induction s as [|c s IH]; simpl; [reflexivity|].
  intros H. apply andb_true_iff in H as [Hc Hs].
  now rewrite (Hpq _ Hc), IH.
Qed.

(** ** Parenthetical notes *)

Lemma to_rparen_closing body :
  Py.all_chars (fun c => negb (c =? ")")%char) body = true ->
  to_rparen (body ++ ")") = Some (S (String.length body)).
Proof.
  induction body as [|c body IH]; simpl; intros H; [reflexivity|].
  apply andb_true_iff in H as [Hc Hb]. apply negb_true_iff in Hc.
  now rewrite Hc, IH.
Qed.

Lemma sub_paren_from_all s : sub_paren_from (String.length s) s = "".
Proof. induction s as [|c s IH]; simpl; [reflexivity | exact IH]. Qed.

Lemma length_snoc s c : String.length (s ++ String c "") = S (String.length s).
Proof. induction s as [|a s IH]; simpl; [reflexivity | now rewrite IH]. Qed.

(** A note in parentheses is removed whole. *)
Lemma sub_paren_note body :
  Py.all_chars (fun c => negb (c =? ")")%char) body = true ->
  sub_paren ("(" ++ body ++ ")") = "".
Proof.
  intros H. unfold sub_paren. cbn [append sub_paren_from paren_match].
  change (Py.is_space "(") with false. cbn [Ascii.eqb Bool.eqb].
  rewrite (to_rparen_closing _ H). cbn [option_map].
  rewrite <- (length_snoc body ")"). apply sub_paren_from_all.
Qed.



(** ** The context argument *)

(** C8, as stated, fails: the code that stands for Africa resolves to the
    same country under the manufacturer the table's comment names and
    under another one. *)
Lemma context_ignored_for_AF :
  normalize_country (PStr "AF") (PStr "BMW AG") = Some "South Africa"
  /\ normalize_country (PStr "AF") (PStr "BMW") = Some "South Africa"
  /\ normalize_country (PStr "AF") (PStr "Toyota") = Some "South Africa".
Proof. repeat split; vm_compute; reflexivity. Qed.

(** C8, amended: no token, colliding or not, is resolved differently under
    two contexts. *)
Theorem normalize_country_context_free code context1 context2 :
  normalize_country code context1 = normalize_country code context2.
Proof. destruct code; reflexivity. Qed.

(** ** The loop of [process_data] *)

Lemma process_data_cons r rest :
  process_data (r :: rest) =
  (match process_row r with Appended e => [e] | _ => [] end ++ process_data rest)%list.
Proof. reflexivity. Qed.

(** What an appended entry records of its row. *)
Lemma appended_fields r e :
  process_row r = Appended e ->
  8 <= List.length r
  /\ Raw e = r
  /\ Manufacturer e = normalize_manufacturer (clean_manufacturer (cell r 0))
  /\ (exists cleaned, clean_manufacturer (cell r 0) = Some cleaned /\ cleaned <> "")
  /\ Car_Line e = match clean_car_line (cell r 2) with
                  | Some c => PStr c
                  | None => cell r 1
                  end
  /\ Pct_US_Canada e = parse_us_canada_percentage (cell r 4)
  /\ Primary_Pct e = or_zero (fst (parse_country_percentage (cell r 5)))
  /\ Secondary_Pct e = or_zero (fst (parse_country_percentage (cell r 6)))
  /\ Primary_Country e =
       or_empty match snd (parse_country_percentage (cell r 5)) with
                | Some c => if c =? "" then None else normalize_country (PStr c) PNone
                | None => None
                end
  /\ Secondary_Country e =
       or_empty match snd (parse_country_percentage (cell r 6)) with
                | Some c => if c =? "" then None else normalize_country (PStr c) PNone
                | None => None
                end.
Proof.
  unfold process_row. intros H.
  destruct (Nat.ltb (List.length r) 8) eqn:Hlen; [discriminate|].
  apply Nat.ltb_ge in Hlen.
  destruct (is_legend (cell r 0)); [discriminate|].
  destruct (clean_manufacturer (cell r 0)) as [cleaned|] eqn:Hclean; [|discriminate].
  destruct cleaned as [|c0 cleaned]; [discriminate|].
  assert (H2 : Nat.ltb 2 (List.length r) = true) by (apply Nat.ltb_lt; lia).
  assert (H1 : Nat.ltb 1 (List.length r) = true) by (apply Nat.ltb_lt; lia).
  assert (H4 : Nat.ltb 4 (List.length r) = true) by (apply Nat.ltb_lt; lia).
  assert (H5 : Nat.ltb 5 (List.length r) = true) by (apply Nat.ltb_lt; lia).
  assert (H6 : Nat.ltb 6 (List.length r) = true) by (apply Nat.ltb_lt; lia).
  rewrite H1, H2, H4, H5, H6 in H.
  destruct (parse_country_percentage (cell r 5)) as [pct1 code1].
  destruct (parse_country_percentage (cell r 6)) as [pct2 code2].
  injection H as <-. cbn [Raw Manufacturer Car_Line Pct_US_Canada Primary_Pct
    Secondary_Pct Primary_Country Secondary_Country fst snd].
  split; [assumption|]. split; [reflexivity|]. split; [reflexivity|].
  split; [exists (String c0 cleaned); split; [reflexivity | discriminate]|].
  repeat split.
Qed.

(** Every entry of the result was appended for a row of the input, which
    it keeps in [Raw]. *)
Lemma process_data_origin raw_data e :
  In e (process_data raw_data) ->
  In (Raw e) raw_data /\ process_row (Raw e) = Appended e.
Proof.
  induction raw_data as [|r rest IH]; [intros []|].
  rewrite process_data_cons. intros H. apply in_app_or in H as [H|H].
  - destruct (process_row r) as [| | |e'] eqn:Hr; try contradiction.
    destruct H as [<-|[]].
    destruct (appended_fields _ _ Hr) as (_ & Hraw & _).
    rewrite Hraw. split; [now left | assumption].
  - destruct (IH H) as [Hin Hrow]. split; [now right | assumption].
Qed.

(** C7: the Corolla row of the scenario yields exactly one entry, with the
    fields the scenario lists. *)
Theorem process_data_corolla :
  process_data [corolla_row] = [corolla_entry]
  /\ Manufacturer corolla_entry = Some "Toyota"
  /\ Car_Line corolla_entry = PStr "Corolla"
  /\ Pct_US_Canada corolla_entry = 75%Z
  /\ Primary_Country corolla_entry = "Germany"
  /\ Primary_Pct corolla_entry = 15%Z
  /\ Secondary_Country corolla_entry = "Japan"
  /\ Secondary_Pct corolla_entry = 10%Z
  /\ Engine_Source corolla_entry = PStr "Germany"
  /\ Transmission_Source corolla_entry = PStr "Japan"
  /\ Assembly_Country corolla_entry = PStr "United States".
Proof. repeat split; vm_compute; reflexivity. Qed.

(** ** Percentages *)

Lemma int_from_nonneg ds acc : (0 <= acc)%Z -> (0 <= Py.int_from acc ds)%Z.
Proof.
  revert acc. induction ds as [|c ds IH]; cbn [Py.int_from]; intros acc H; [assumption|].
  apply IH. pose proof (digit_value_nonneg c). lia.
Qed.

Lemma parse_us_canada_percentage_nonneg v : (0 <= parse_us_canada_percentage v)%Z.
Proof.
  destruct v as [|s|z]; simpl; try lia.
  destruct (s =? ""); [lia|].
  destruct (_ =? ""); [lia|]. apply int_from_nonneg. lia.
Qed.

Lemma parse_country_percentage_nonneg v :
  (0 <= or_zero (fst (parse_country_percentage v)))%Z.
Proof.
  destruct v as [|s|z]; simpl; try lia.
  destruct (s =? ""); simpl; [lia|].
  destruct (Py.strip s =? ""); simpl; [lia|].
  destruct (match_country_percentage _) as [[g1 g2]|]; simpl; [|lia].
  apply int_from_nonneg. lia.
Qed.

(** C1, as stated, fails: nothing clamps a leading integer above 100. *)
Lemma percent_above_hundred :
  map (fun e => (Pct_US_Canada e, Primary_Pct e, Secondary_Pct e))
      (process_data [over_row])
  = [(150, 120, 101)%Z].
Proof. vm_compute. reflexivity. Qed.

(** ** Manufacturer and car line *)

Lemma normalized_variant_value items m n :
  normalized_variant items m = Some n -> In n (map snd items).
Proof.
  induction items as [|[pattern normalized] items IH]; simpl; [discriminate|].
  destruct (_ || _); [intros [= <-]; now left | intros H; right; auto].
Qed.




(** ** Rows left out *)






(** C4, as stated, fails: the two-cell row of the scenario leaves the loop
    at the length guard, and its first cell matches no legend pattern; a
    short row whose first cell does match one leaves at the length guard
    as well. *)
Lemma short_legend_rows_leave_at_length_guard :
  process_row [PStr "G"; PStr "Germany"] = TooShort
  /\ is_legend (PStr "G") = false
  /\ is_legend (PStr "G Germany") = true
  /\ process_row [PStr "G Germany"; PStr ""] = TooShort.
Proof. repeat split; vm_compute; reflexivity. Qed.

(** C4, amended: a row whose first cell matches a legend pattern yields no
    entry, whatever its other cells hold; it leaves the loop at the legend
    guard when it has eight cells or more and at the length guard
    otherwise.  The two-cell row of the scenario yields no entry either. *)
Theorem legend_row_yields_no_entry first rest :
  is_legend first = true ->
  process_data [first :: rest] = []
  /\ (8 <= List.length (first :: rest) -> process_row (first :: rest) = LegendEntry)
  /\ (List.length (first :: rest) < 8 -> process_row (first :: rest) = TooShort)
  /\ process_data [[PStr "G"; PStr "Germany"]] = [].
Proof.
  intros Hleg.
  assert (Hlong : 8 <= List.length (first :: rest) -> process_row (first :: rest) = LegendEntry).
  { intros Hlen. unfold process_row. apply Nat.ltb_ge in Hlen. rewrite Hlen.
    change (cell (first :: rest) 0) with first. now rewrite Hleg. }
  assert (Hshort : List.length (first :: rest) < 8 -> process_row (first :: rest) = TooShort).
  { intros Hlen. unfold process_row. apply Nat.ltb_lt in Hlen. now rewrite Hlen. }
  repeat split; try assumption.
  unfold process_data, flat_map.
  destruct (Nat.lt_ge_cases (List.length (first :: rest)) 8) as [Hlen|Hlen].
  - now rewrite (Hshort Hlen).
  - now rewrite (Hlong Hlen).
Qed.

Lemma legend_row_yields_no_entry_witness :
  process_data [key_row] = []
  /\ (8 <= List.length key_row -> process_row key_row = LegendEntry)
  /\ (List.length key_row < 8 -> process_row key_row = TooShort)
  /\ process_data [[PStr "G"; PStr "Germany"]] = [].
Proof.
  apply (legend_row_yields_no_entry (PStr "G Germany") (tl key_row)).
  vm_compute. reflexivity.
Defined.

(** ** Composite cells *)

Lemma take_while_app p s rest :
  Py.all_chars p s = true -> Py.head_is p rest = false ->
  Py.take_while p (s ++ rest) = s.
Proof.
  intros Hs Hrest. induction s as [|c s IH]; simpl in *.
  - destruct rest as [|c rest]; [reflexivity|]. simpl in *. now rewrite Hrest.
  - apply andb_true_iff in Hs as [Hc Hs]. now rewrite Hc, IH.
Qed.

Lemma drop_while_app p s rest :
  Py.all_chars p s = true -> Py.head_is p rest = false ->
  Py.drop_while p (s ++ rest) = rest.
Proof.
  intros Hs Hrest. induction s as [|c s IH]; simpl in *.
  - destruct rest as [|c rest]; [reflexivity|]. simpl in *. now rewrite Hrest.
  - apply andb_true_iff in Hs as [Hc Hs]. rewrite Hc. auto.
Qed.

Lemma take_while_all p s : Py.all_chars p s = true -> Py.take_while p s = s.
Proof.
  induction s as [|c s IH]; simpl; [reflexivity|].
  intros H. apply andb_true_iff in H as [Hc Hs]. now rewrite Hc, IH.
Qed.

Lemma app_nonempty_r s c t : (s ++ String c t =? "") = false.
Proof. destruct s; reflexivity. Qed.

Lemma is_digits_spec ds :
  is_digits ds = true -> (ds =? "") = false /\ Py.all_chars Py.is_digit ds = true.
Proof.
  unfold is_digits. intros H. apply andb_true_iff in H as [H1 H2].
  apply negb_true_iff in H1. auto.
Qed.

Lemma is_letters_spec cs :
  is_letters cs = true ->
  (cs =? "") = false /\ Py.all_chars Py.is_alpha cs = true
  /\ Py.head_is Py.is_space cs = false.
Proof.
  unfold is_letters. intros H. apply andb_true_iff in H as [H1 H2].
  apply negb_true_iff in H1. repeat split; try assumption.
  destruct cs as [|c cs]; [reflexivity|]. simpl in *.
  apply andb_true_iff in H2 as [Hc _]. now apply alpha_not_space.
Qed.

(** The pattern on digits, a percent sign and a tail that starts with no
    white space. *)
Lemma match_country_percentage_digits ds tail :
  is_digits ds = true -> Py.head_is Py.is_space tail = false ->
  match_country_percentage (ds ++ "%" ++ tail)
  = Some (ds, let letters := Py.take_while Py.is_alpha tail in
              if letters =? "" then None else Some letters).
Proof.
  intros Hds Htail. apply is_digits_spec in Hds as [Hne Hall].
  unfold match_country_percentage.
  rewrite take_while_app, drop_while_app by (assumption || reflexivity).
  rewrite Hne. cbn [append]. change (Py.lstrip (String "%" tail)) with (String "%" tail).
  cbv iota beta.
  replace (Py.lstrip tail) with tail; [reflexivity|].
  destruct tail as [|c tail]; [reflexivity|]. simpl in *. now rewrite Htail.
Qed.

(** A cell of digits, a percent sign and a tail free of white space is
    matched as it stands: stripping and taking the first line change
    nothing. *)
Lemma parse_country_percentage_digits ds tail :
  is_digits ds = true ->
  Py.all_chars (fun c => negb (Py.is_space c)) tail = true ->
  parse_country_percentage (PStr (ds ++ "%" ++ tail))
  = (Some (Py.int ds),
     let letters := Py.take_while Py.is_alpha tail in
     if letters =? "" then None else Some (Py.upper letters)).
Proof.
  intros Hds Htail.
  assert (Hclean : Py.all_chars (fun c => negb (Py.is_space c)) (ds ++ "%" ++ tail) = true).
  { rewrite all_chars_app. apply andb_true_iff. split.
    - apply is_digits_spec in Hds as [_ Hall].
      eapply all_chars_weaken; [|exact Hall].
      intros c Hc. now rewrite (digit_not_space c Hc).
    - cbn [append Py.all_chars]. now rewrite Htail. }
  unfold parse_country_percentage.
  rewrite (strip_no_space _ Hclean).
  change (ds ++ "%" ++ tail) with (ds ++ String "%" tail) at 1 2.
  rewrite !app_nonempty_r.
  rewrite (first_line_no_space _ Hclean), (strip_no_space _ Hclean).
  rewrite match_country_percentage_digits; [|assumption|].
  - cbv zeta. destruct (_ =? ""); reflexivity.
  - destruct tail as [|c tail]; [reflexivity|]. simpl in *.
    apply andb_true_iff in Htail as [Hc _]. now apply negb_true_iff.
Qed.

Lemma numeral_table :
  forallb (fun k => let n := Z.of_nat k in
                    is_digits (numeral n) && (Py.int (numeral n) =? n)%Z)
          (seq 0 101) = true.
Proof. vm_compute. reflexivity. Qed.

(** The numeral of a percentage is a run of digits that [int] reads back. *)
Lemma numeral_percent n :
  (0 <= n <= 100)%Z -> is_digits (numeral n) = true /\ Py.int (numeral n) = n.
Proof.
  intros Hn. pose proof numeral_table as H.
  rewrite forallb_forall in H. specialize (H (Z.to_nat n)).
  rewrite Z2Nat.id in H by lia.
  assert (Hin : In (Z.to_nat n) (seq 0 101)) by (apply in_seq; lia).
  apply H in Hin. apply andb_true_iff in Hin as [Hd Hi].
  apply Z.eqb_eq in Hi. auto.
Qed.

Lemma upper_char_of_upper c : Py.is_upper c = true -> Py.upper_char c = c.
Proof. by_cases_on_char c. Qed.

Lemma upper_of_upper s : Py.all_chars Py.is_upper s = true -> Py.upper s = s.
Proof.
  unfold Py.upper.
  induction s as [|c s IH]; cbn [Py.map_chars Py.all_chars]; [reflexivity|].
  intros H. apply andb_true_iff in H as [Hc Hs].
  now rewrite (upper_char_of_upper c Hc), IH.
Qed.

(** C5, as stated, fails on a code in lower case: the code comes back in
    upper case, not as it was written. *)
Lemma lower_case_code_is_raised :
  parse_country_percentage (PStr (numeral 15 ++ "%" ++ "g")) = (Some 15%Z, Some "G")
  /\ parse_country_percentage (PStr (numeral 15 ++ "%" ++ "g")) <> (Some 15%Z, Some "g").
Proof. split; vm_compute; [reflexivity | discriminate]. Qed.

(** C5, amended: for a percentage [n] from 0 to 100 and a code [C] of
    letters, the cell [n%C] parses to [n] and [C] in upper case; that is
    [C] itself when [C] is written in capitals. *)
Theorem parse_country_percentage_code n C :
  (0 <= n <= 100)%Z ->
  is_letters C = true ->
  parse_country_percentage (PStr (numeral n ++ "%" ++ C)) = (Some n, Some (Py.upper C))
  /\ (Py.all_chars Py.is_upper C = true ->
      parse_country_percentage (PStr (numeral n ++ "%" ++ C)) = (Some n, Some C)).
Proof.
  intros Hn HC.
  destruct (numeral_percent n Hn) as [Hds Hint].
  destruct (is_letters_spec C HC) as (Hne & Hall & _).
  assert (Hparse :
    parse_country_percentage (PStr (numeral n ++ "%" ++ C)) = (Some n, Some (Py.upper C))).
  { rewrite parse_country_percentage_digits; [|assumption|].
    - cbv zeta. now rewrite (take_while_all _ _ Hall), Hne, Hint.
    - eapply all_chars_weaken; [|exact Hall].
      intros c Hc. now rewrite (alpha_not_space c Hc). }
  split; [assumption|].
  intros Hup. now rewrite Hparse, (upper_of_upper C Hup).
Qed.

Lemma parse_country_percentage_code_witness :
  parse_country_percentage (PStr (numeral 50 ++ "%" ++ "MEX")) = (Some 50%Z, Some (Py.upper "MEX"))
  /\ (Py.all_chars Py.is_upper "MEX" = true ->
      parse_country_percentage (PStr (numeral 50 ++ "%" ++ "MEX")) = (Some 50%Z, Some "MEX")).
Proof.
  apply (parse_country_percentage_code 50 "MEX"); [lia | reflexivity].
Defined.

(** ** Letter case *)

(** The cleaning steps of [normalize_country] commute with [upper]: white
    space, parentheses and line feeds have no case. *)

Lemma lstrip_upper s : Py.lstrip (Py.upper s) = Py.upper (Py.lstrip s).
Proof.
  unfold Py.upper. induction s as [|c s IH]; cbn [Py.map_chars Py.lstrip]; [reflexivity|].
  rewrite space_upper_char. destruct (Py.is_space c); [exact IH | reflexivity].
Qed.

Lemma rstrip_upper s : Py.rstrip (Py.upper s) = Py.upper (Py.rstrip s).
Proof.
  unfold Py.upper. induction s as [|c s IH]; cbn [Py.map_chars Py.rstrip]; [reflexivity|].
  rewrite IH, space_upper_char.
  destruct (Py.rstrip s); cbn [Py.map_chars]; [destruct (Py.is_space c)|]; reflexivity.
Qed.

Lemma strip_upper s : Py.strip (Py.upper s) = Py.upper (Py.strip s).
Proof. unfold Py.strip. now rewrite lstrip_upper, rstrip_upper. Qed.

Lemma to_rparen_upper s : to_rparen (Py.upper s) = to_rparen s.
Proof.
  unfold Py.upper. induction s as [|c s IH]; cbn [Py.map_chars to_rparen]; [reflexivity|].
  now rewrite rparen_upper_char, IH.
Qed.

Lemma paren_match_upper s : paren_match (Py.upper s) = paren_match s.
Proof.
  induction s as [|c s IH]; [reflexivity|].
  change (Py.upper (String c s)) with (String (Py.upper_char c) (Py.upper s)).
  cbn [paren_match]. now rewrite space_upper_char, lparen_upper_char, IH, to_rparen_upper.
Qed.

Lemma sub_paren_from_upper skip s :
  sub_paren_from skip (Py.upper s) = Py.upper (sub_paren_from skip s).
Proof.
  revert skip. induction s as [|c s IH]; intros skip; [reflexivity|].
  change (Py.upper (String c s)) with (String (Py.upper_char c) (Py.upper s)).
  cbn [sub_paren_from]. destruct skip as [|k]; [|apply IH].
  change (String (Py.upper_char c) (Py.upper s)) with (Py.upper (String c s)).
  rewrite paren_match_upper.
  destruct (paren_match (String c s)) as [[|k]|]; rewrite IH; reflexivity.
Qed.

Lemma has_newline_upper s : Py.has_newline (Py.upper s) = Py.has_newline s.
Proof.
  unfold Py.upper. induction s as [|c s IH]; cbn [Py.map_chars Py.has_newline]; [reflexivity|].
  now rewrite newline_upper_char, IH.
Qed.

Lemma first_line_upper s : Py.first_line (Py.upper s) = Py.upper (Py.first_line s).
Proof.
  unfold Py.upper. induction s as [|c s IH]; cbn [Py.map_chars Py.first_line]; [reflexivity|].
  rewrite newline_upper_char.
  destruct (c =? Py.newline)%char; cbn [Py.map_chars]; [reflexivity | now rewrite IH].
Qed.

Lemma country_code_text_upper s :
  country_code_text (Py.upper s) = Py.upper (country_code_text s).
Proof.
  unfold country_code_text, sub_paren.
  rewrite sub_paren_from_upper, strip_upper, has_newline_upper.
  destruct (Py.has_newline _); [|reflexivity].
  now rewrite first_line_upper, strip_upper.
Qed.

Lemma length_upper s : String.length (Py.upper s) = String.length s.
Proof. unfold Py.upper. induction s as [|c s IH]; simpl; [reflexivity | now rewrite IH]. Qed.

Lemma empty_upper s : (Py.upper s =? "") = (s =? "").
Proof. destruct s; reflexivity. Qed.

Lemma title_from_upper prev s : Py.title_from prev (Py.upper s) = Py.title_from prev s.
Proof.
  unfold Py.upper. revert prev.
  induction s as [|c s IH]; intros prev; cbn [Py.map_chars Py.title_from]; [reflexivity|].
  now rewrite alpha_upper_char, lower_upper_char, upper_upper_char, IH.
Qed.

(** [normalize_country] reads the letter case of its argument only where
    it returns a text of at most three characters unchanged. *)
Lemma normalize_country_fold s context :
  normalize_country (PStr s) context =
  let original := Py.strip (Py.upper s) in
  if original =? "" then None
  else
    let code_upper := country_code_text original in
    match resolve_upper code_upper with
    | Some r => Some r
    | None =>
        if Nat.ltb 3 (String.length code_upper) then Some (Py.title code_upper)
        else Some (country_code_text (Py.strip s))
    end.
Proof.
  cbv zeta. unfold normalize_country.
  rewrite strip_upper, empty_upper, country_code_text_upper, length_upper.
  unfold Py.title. now rewrite title_from_upper.
Qed.

Lemma canonical_table : forallb resolves_by_case_fold canonical_countries = true.
Proof. vm_compute. reflexivity. Qed.

(** C6: a canonical country name, in any letter case, resolves to the
    name, and the name resolves to itself. *)
Theorem normalize_country_canonical_idempotent name s context :
  In name canonical_countries ->
  Py.upper s = Py.upper name ->
  normalize_country (PStr s) context = Some name
  /\ normalize_country (PStr name) context = Some name.
Proof.
  intros Hin Hs.
  assert (Hfold : forall t, Py.upper t = Py.upper name ->
                            normalize_country (PStr t) context = Some name).
  { intros t Ht. rewrite normalize_country_fold, Ht. cbv zeta.
    pose proof canonical_table as H. rewrite forallb_forall in H.
    specialize (H name Hin). unfold resolves_by_case_fold in H. cbv zeta in H.
    apply andb_true_iff in H as [Hne H]. apply negb_true_iff in Hne. rewrite Hne.
    destruct (resolve_upper _) as [r|].
    - apply String.eqb_eq in H. now subst.
    - apply andb_true_iff in H as [Hlen Htitle]. rewrite Hlen.
      apply String.eqb_eq in Htitle. now rewrite Htitle. }
  split; [apply Hfold, Hs | apply Hfold; reflexivity].
Qed.

Lemma normalize_country_canonical_idempotent_witness :
  normalize_country (PStr "south kOREA") (PStr "Kia") = Some "South Korea"
  /\ normalize_country (PStr "South Korea") (PStr "Kia") = Some "South Korea".
Proof.
  apply (normalize_country_canonical_idempotent "South Korea" "south kOREA").
  - vm_compute. tauto.
  - reflexivity.
Defined.

(** ** Further scenarios *)

(** A manufacturer cell with the company suffix folds to the short name. *)
Theorem hyundai_canonical :
  normalize_manufacturer (clean_manufacturer (PStr "Hyundai Motor Company")) = Some "Hyundai".
Proof. vm_compute. reflexivity. Qed.

(** A city with a state abbreviation resolves by the abbreviation, before
    the trailing word is looked at. *)
Theorem detroit_resolves_by_state :
  normalize_country (PStr "Detroit MI USA") (PStr "") = Some "United States"
  /\ region_of_words (Py.split (Py.replace_char "," " " (Py.upper "Detroit MI USA")))
     = Some "United States".
Proof. split; vm_compute; reflexivity. Qed.

(** A city followed by a spelled-out country resolves to the country by
    the search for a known name inside the text: the trailing word is no
    key of [COUNTRY_MAPPING], and no earlier rule applies. *)
Theorem cassino_resolves_by_known_name :
  normalize_country (PStr "Cassino Italy") (PStr "") = Some "Italy"
  /\ region_of_words (Py.split (Py.replace_char "," " " (Py.upper "Cassino Italy"))) = None
  /\ country_prefix (Py.upper "Cassino Italy") = None
  /\ trailing_country (Py.split (Py.replace_char "," " " (Py.upper "Cassino Italy"))) = None
  /\ Py.lookup (Py.upper "Cassino Italy") COUNTRY_MAPPING = None
  /\ known_country_in known_countries (Py.upper "Cassino Italy") = Some "Italy".
Proof. repeat split; vm_compute; reflexivity. Qed.

Lemma lstrip_all_space s : Py.all_chars Py.is_space s = true -> Py.lstrip s = "".
Proof.
  induction s as [|c s IH]; simpl; [reflexivity|].
  intros H. apply andb_true_iff in H as [Hc Hs]. rewrite Hc. auto.
Qed.

(** A token that is empty or white space resolves to [None]. *)
Theorem normalize_country_blank s context :
  Py.all_chars Py.is_space s = true -> normalize_country (PStr s) context = None.
Proof.
  intros H. unfold normalize_country, Py.strip.
  now rewrite (lstrip_all_space s H).
Qed.

Lemma normalize_country_blank_witness :
  normalize_country (PStr "   ") (PStr "Toyota") = None.
Proof. apply (normalize_country_blank "   "). reflexivity. Defined.

(** ** Rows as [parse_pdf] hands them on *)

Lemma rstrip_idem s : Py.rstrip (Py.rstrip s) = Py.rstrip s.
Proof.
  induction s as [|c s IH]; [reflexivity|].
  cbn [Py.rstrip]. destruct (Py.rstrip s) as [|d r] eqn:E.
  - destruct (Py.is_space c) eqn:Hc; [reflexivity|]. cbn [Py.rstrip]. now rewrite Hc.
  - cbn [Py.rstrip]. cbn [Py.rstrip] in IH. now rewrite IH.
Qed.

Lemma lstrip_head_space s : Py.head_is Py.is_space (Py.lstrip s) = false.
Proof.
  induction s as [|c s IH]; [reflexivity|].
  cbn [Py.lstrip]. destruct (Py.is_space c) eqn:Hc; [exact IH | simpl; exact Hc].
Qed.

Lemma rstrip_head_space s :
  Py.head_is Py.is_space s = false -> Py.head_is Py.is_space (Py.rstrip s) = false.
Proof.
  destruct s as [|c s]; [reflexivity|]. cbn [Py.head_is Py.rstrip]. intros Hc.
  destruct (Py.rstrip s); [rewrite Hc|]; simpl; auto.
Qed.

Lemma lstrip_fixed s : Py.head_is Py.is_space s = false -> Py.lstrip s = s.
Proof. destruct s as [|c s]; [reflexivity|]. simpl. now intros ->. Qed.

(** [strip] leaves a stripped text alone. *)
Lemma strip_idem s : Py.strip (Py.strip s) = Py.strip s.
Proof.
  unfold Py.strip.
  rewrite (lstrip_fixed (Py.rstrip (Py.lstrip s))).
  - apply rstrip_idem.
  - apply rstrip_head_space, lstrip_head_space.
Qed.

Lemma strip_head_space s : Py.head_is Py.is_space (Py.strip s) = false.
Proof. apply rstrip_head_space, lstrip_head_space. Qed.

Lemma clean_cell_stripped c : Py.strip (clean_cell c) = clean_cell c.
Proof.
  destruct c as [s|]; [|reflexivity]. unfold clean_cell.
  destruct (s =? ""); [reflexivity | apply strip_idem].
Qed.

Lemma length_snoc_list {A} (l : list A) x : List.length (l ++ [x]) = S (List.length l).
Proof. rewrite length_app. simpl. lia. Qed.

Lemma nth_snoc_last {A} (l : list A) x d : nth (List.length l) (l ++ [x]) d = x.
Proof. induction l as [|a l IH]; [reflexivity | exact IH]. Qed.

Lemma nth_snoc_before {A} (l : list A) x d i :
  i < List.length l -> nth i (l ++ [x]) d = nth i l d.
Proof. intros H. now apply app_nth1. Qed.

(** What [parse_row] keeps: the stripped cells of the table row followed
    by the year; the first cell is a text that is not empty and holds
    neither header word. *)
Lemma parse_row_kept year r x :
  parse_row year r = Some x ->
  x = (map PStr (map clean_cell r) ++ [PInt year])%list
  /\ exists first rest,
       map clean_cell r = first :: rest
       /\ first <> ""
       /\ Py.contains "Manufacturer" first = false
       /\ Py.contains "Car Line" first = false.
Proof.
  unfold parse_row. destruct (map clean_cell r) as [|first rest] eqn:E; [discriminate|].
  destruct (negb (any_text (first :: rest)) || Py.contains "Manufacturer" first
            || Py.contains "Car Line" first) eqn:Hhead; [discriminate|].
  destruct (first =? "") eqn:Hfirst; [discriminate|].
  intros [= <-]. split; [reflexivity|]. exists first, rest.
  apply orb_false_iff in Hhead as [Hhead Hcar].
  apply orb_false_iff in Hhead as [_ Hman].
  apply String.eqb_neq in Hfirst. auto.
Qed.

(** The fields an appended entry takes from the ends of its row. *)
Lemma appended_sources r e :
  process_row r = Appended e ->
  Year e = cell_from_end r 1
  /\ Engine_Source e = or_raw (normalize_country (cell r 7) PNone) (cell r 7)
  /\ Transmission_Source e =
       (let trans := if Nat.ltb 9 (List.length r) then cell r 9 else PStr "" in
        or_raw (normalize_country trans PNone) trans)
  /\ Assembly_Country e =
       or_raw (normalize_country (cell_from_end r 3) PNone) (cell_from_end r 3).
Proof.
  unfold process_row. intros H.
  destruct (Nat.ltb (List.length r) 8) eqn:Hlen; [discriminate|].
  apply Nat.ltb_ge in Hlen.
  destruct (is_legend (cell r 0)); [discriminate|].
  destruct (clean_manufacturer (cell r 0)) as [[|c0 cleaned]|]; try discriminate.
  assert (H7 : Nat.ltb 7 (List.length r) = true) by (apply Nat.ltb_lt; lia).
  assert (H3 : Nat.ltb 3 (List.length r) = true) by (apply Nat.ltb_lt; lia).
  rewrite H7, H3 in H.
  destruct (parse_country_percentage _) as [pct1 code1].
  destruct (parse_country_percentage _) as [pct2 code2].
  injection H as <-. cbn [Year Engine_Source Transmission_Source Assembly_Country].
  repeat split.
Qed.

(** The table rows [parse_pdf] hands on. *)
Lemma parse_pdf_rows pages year x :
  In x (parse_pdf pages year) ->
  exists table r, In (Some table) pages /\ In r table /\ parse_row year r = Some x.
Proof.
  unfold parse_pdf. intros H. apply in_flat_map in H as ([table|] & Hpage & H); [|contradiction].
  apply in_flat_map in H as (r & Hr & H).
  destruct (parse_row year r) as [y|] eqn:E; [|contradiction].
  destruct H as [<-|[]]. exists table, r. auto.
Qed.

(** Every row that [parse_pdf] returns has one cell more than its table
    row; it ends in the year of the report; the cells before are texts
    that [strip] leaves alone; the first one is not empty and holds
    neither header word. *)
Theorem parse_pdf_row_shape pages year x :
  In x (parse_pdf pages year) ->
  exists cells,
    x = (map PStr cells ++ [PInt year])%list
    /\ Forall (fun s => Py.strip s = s) cells
    /\ exists first rest,
         cells = first :: rest
         /\ first <> ""
         /\ Py.contains "Manufacturer" first = false
         /\ Py.contains "Car Line" first = false.
Proof.
  intros H. apply parse_pdf_rows in H as (table & r & _ & _ & H).
  apply parse_row_kept in H as [-> H].
  exists (map clean_cell r). split; [reflexivity|]. split; [|exact H].
  apply Forall_forall. intros s Hs. apply in_map_iff in Hs as (c & <- & _).
  apply clean_cell_stripped.
Qed.

Lemma parse_pdf_row_shape_witness :
  exists cells,
    [PStr "Audi"; PStr "A4"; PInt 2024] = (map PStr cells ++ [PInt 2024])%list
    /\ Forall (fun s => Py.strip s = s) cells
    /\ exists first rest,
         cells = first :: rest
         /\ first <> ""
         /\ Py.contains "Manufacturer" first = false
         /\ Py.contains "Car Line" first = false.
Proof.
  apply (parse_pdf_row_shape
           [None; Some [[Some "Manufacturer"; Some "Car Line"];
                        [Some " Audi "; Some ("A4" ++ String Py.newline "")];
                        [None; Some "x"]]]
           2024).
  vm_compute. left. reflexivity.
Defined.

Lemma parse_row_length year r x :
  parse_row year r = Some x -> List.length x = S (List.length r).
Proof.
  intros H. apply parse_row_kept in H as [-> _].
  now rewrite length_snoc_list, !length_map.
Qed.

Lemma parse_row_last year r x :
  parse_row year r = Some x -> cell_from_end x 1 = PInt year.
Proof.
  intros H. apply parse_row_kept in H as [-> _].
  unfold cell_from_end, cell. rewrite length_snoc_list.
  replace (S (List.length (map PStr (map clean_cell r))) - 1)
    with (List.length (map PStr (map clean_cell r))) by lia.
  apply nth_snoc_last.
Qed.

(** From the tables to the frame: every entry [main] writes carries the
    year of a report that was read, the one its row was parsed from. *)
Theorem main_entry_year reports frame e :
  main reports = Some frame ->
  In e frame ->
  exists year pages,
    In (year, pages) reports
    /\ In (Raw e) (parse_pdf pages year)
    /\ Year e = PInt year.
Proof.
  unfold main. intros Hmain He.
  assert (Hframe : frame = process_data (all_raw_data reports)).
  { destruct (all_raw_data reports); [discriminate | now injection Hmain]. }
  subst frame. apply process_data_origin in He as [Hin Hrow].
  unfold all_raw_data in Hin. apply in_flat_map in Hin as ([year pages] & Hrep & Hin).
  exists year, pages. split; [assumption|]. split; [assumption|].
  destruct (appended_sources _ _ Hrow) as (-> & _).
  cbn [fst snd] in Hin. apply parse_pdf_rows in Hin as (table & r & _ & _ & Hr).
  eapply parse_row_last, Hr.
Qed.

Lemma main_entry_year_witness :
  exists year pages,
    In (year, pages) [(2023%Z, [Some [map Some (map py_str (removelast corolla_row))]])]
    /\ In (Raw corolla_entry) (parse_pdf pages year)
    /\ Year corolla_entry = PInt year.
Proof.
  apply (main_entry_year
           [(2023%Z, [Some [map Some (map py_str (removelast corolla_row))]])]
           [corolla_entry] corolla_entry).
  - vm_compute. reflexivity.
  - left. reflexivity.
Defined.

Lemma process_data_all_short rows :
  (forall x, In x rows -> List.length x < 8) -> process_data rows = [].
Proof.
  induction rows as [|x rows IH]; intros H; [reflexivity|].
  rewrite process_data_cons, IH by (intros y Hy; apply H; now right).
  unfold process_row.
  assert (Hx : Nat.ltb (List.length x) 8 = true) by (apply Nat.ltb_lt, H; now left).
  now rewrite Hx.
Qed.

(** The year that [parse_pdf] appends counts as a cell in [process_data]:
    a report whose table rows all have fewer than seven cells yields no
    entry at all. *)
Theorem narrow_tables_yield_nothing pages year :
  (forall table r, In (Some table) pages -> In r table -> List.length r < 7) ->
  process_data (parse_pdf pages year) = [].
Proof.
  intros H. apply process_data_all_short. intros x Hx.
  apply parse_pdf_rows in Hx as (table & r & Hpage & Hr & Hx).
  rewrite (parse_row_length _ _ _ Hx). specialize (H table r Hpage Hr). lia.
Qed.

Lemma narrow_tables_yield_nothing_witness :
  process_data
    (parse_pdf [Some [[Some "Toyota"; Some "Corolla"; Some "Corolla"; Some "PC";
                       Some "75%"; Some "15%G"]]] 2023)
  = [].
Proof.
  apply narrow_tables_yield_nothing.
  intros table r [[= <-]|[]] [<-|[]]. simpl. lia.
Defined.

(** A table row of exactly seven cells that yields an entry puts the year
    of the report into the engine source, and the empty text into the
    transmission source: column 7 of such a row is the appended year, and
    there is no column 9. *)
Theorem seven_cell_row_engine_is_year pages year x e :
  In x (parse_pdf pages year) ->
  List.length x = 8 ->
  process_row x = Appended e ->
  Engine_Source e = PInt year /\ Transmission_Source e = PStr "".
Proof.
  intros Hx Hlen Hrow.
  destruct (appended_sources _ _ Hrow) as (_ & Heng & Htrans & _).
  apply parse_pdf_rows in Hx as (table & r & _ & _ & Hr).
  pose proof (parse_row_last _ _ _ Hr) as Hlast.
  unfold cell_from_end in Hlast. rewrite Hlen in Hlast. change (8 - 1) with 7 in Hlast.
  rewrite Heng, Htrans, Hlast, Hlen. split; reflexivity.
Qed.

Lemma seven_cell_row_engine_is_year_witness :
  exists e,
    process_row [PStr "Toyota"; PStr "Corolla"; PStr "Corolla"; PStr "PC";
                 PStr "75%"; PStr "15%G"; PStr "10%J"; PInt 2023] = Appended e
    /\ Engine_Source e = PInt 2023 /\ Transmission_Source e = PStr "".
Proof.
  eexists. split; [vm_compute; reflexivity|].
  apply (seven_cell_row_engine_is_year
           [Some [[Some "Toyota"; Some "Corolla"; Some "Corolla"; Some "PC";
                   Some "75%"; Some "15%G"; Some "10%J"]]] 2023
           [PStr "Toyota"; PStr "Corolla"; PStr "Corolla"; PStr "PC";
            PStr "75%"; PStr "15%G"; PStr "10%J"; PInt 2023]).
  - vm_compute. left. reflexivity.
  - reflexivity.
  - vm_compute. reflexivity.
Defined.

(** ** What [clean_manufacturer] returns *)

Lemma prefix_refl s : String.prefix s s = true.
Proof.
  induction s as [|c s IH]; [reflexivity|]. simpl.
  destruct (ascii_dec c c); [exact IH | contradiction].
Qed.

Lemma prefix_cons c s t : String.prefix (String c s) (String c t) = String.prefix s t.
Proof. simpl. destruct (ascii_dec c c); [reflexivity | contradiction]. Qed.

Lemma prefix_single c t : String.prefix (String c "") (String c t) = true.
Proof. rewrite prefix_cons. destruct t; reflexivity. Qed.

Lemma split_words_nonempty s : Forall (fun w => w <> "") (Py.split s).
Proof.
  induction s as [|c t IH]; [constructor|]. cbn [Py.split].
  destruct (Py.is_space c); [exact IH|].
  destruct t as [|c' t']; [repeat constructor; discriminate|].
  destruct (Py.is_space c'); [constructor; [discriminate | exact IH]|].
  destruct (Py.split (String c' t')) as [|w ws].
  - repeat constructor; discriminate.
  - inversion IH; subst. constructor; [discriminate | assumption].
Qed.

(** The first word of a text that starts with no white space is a prefix
    of the text. *)
Lemma split_first_word s w ws :
  Py.split s = w :: ws -> Py.head_is Py.is_space s = false -> String.prefix w s = true.
Proof.
  revert w ws. induction s as [|c t IH]; intros w ws Hsplit Hhead; [discriminate|].
  cbn [Py.head_is] in Hhead. cbn [Py.split] in Hsplit. rewrite Hhead in Hsplit.
  destruct t as [|c' t'].
  - injection Hsplit as <- _. apply prefix_single.
  - destruct (Py.is_space c') eqn:Hc'.
    + injection Hsplit as <- _. apply prefix_single.
    + destruct (Py.split (String c' t')) as [|w' ws'] eqn:Ht.
      * injection Hsplit as <- _. apply prefix_single.
      * injection Hsplit as <- _. rewrite prefix_cons.
        eapply IH; [reflexivity | exact Hc'].
Qed.

Lemma known_prefix_found known first_line m :
  known_prefix known first_line = Some m ->
  In m known /\ Py.startswith first_line m = true.
Proof.
  induction known as [|k known IH]; [discriminate|]. cbn [known_prefix].
  destruct (Py.startswith first_line k) eqn:E.
  - intros [= <-]. split; [now left | assumption].
  - intros H. destruct (IH H). split; [now right | assumption].
Qed.

Lemma known_manufacturers_nonempty m : In m known_manufacturers -> m <> "".
Proof.
  unfold known_manufacturers. simpl. intros H.
  repeat destruct H as [<-|H]; try discriminate. contradiction.
Qed.

(** Whatever [clean_manufacturer] returns is a text that is not empty and
    that the stripped first line of the cell starts with. *)
Theorem clean_manufacturer_is_prefix raw m :
  clean_manufacturer (PStr raw) = Some m ->
  m <> "" /\ Py.startswith (Py.strip (Py.first_line raw)) m = true.
Proof.
  unfold clean_manufacturer. destruct (raw =? ""); [discriminate|].
  set (first_line := Py.strip (Py.first_line raw)).
  destruct (legend_entry first_line); [discriminate|].
  destruct (Py.mem first_line INVALID_MANUFACTURERS) eqn:Hinv; [discriminate|].
  destruct (model_descriptor first_line); [discriminate|].
  assert (Hne : first_line <> "").
  { intros E. rewrite E in Hinv. discriminate. }
  destruct (data_pattern first_line).
  - destruct (known_prefix known_manufacturers first_line) as [mfg|] eqn:Hk.
    + intros [= <-]. apply known_prefix_found in Hk as [Hin Hpre].
      split; [now apply known_manufacturers_nonempty | assumption].
    + destruct (Py.split first_line) as [|w ws] eqn:Hs; [discriminate|].
      intros [= <-]. split.
      * pose proof (split_words_nonempty first_line) as Hw.
        rewrite Hs in Hw. now inversion Hw.
      * unfold Py.startswith. eapply split_first_word; [exact Hs|].
        apply strip_head_space.
  - intros [= <-]. split; [assumption | apply prefix_refl].
Qed.

Lemma clean_manufacturer_is_prefix_witness :
  "Toyota" <> ""
  /\ Py.startswith (Py.strip (Py.first_line "Toyota Camry PC 75%")) "Toyota" = true.
Proof.
  apply (clean_manufacturer_is_prefix "Toyota Camry PC 75%" "Toyota").
  vm_compute. reflexivity.
Defined.

(** ** Lines of the key *)

Lemma upper_not_space c : Py.is_upper c = true -> Py.is_space c = false.
Proof. by_cases_on_char c. Qed.

Lemma upper_not_newline c : Py.is_upper c = true -> (c =? Py.newline)%char = false.
Proof. by_cases_on_char c. Qed.

Lemma lower_not_space c : Py.is_lower c = true -> Py.is_space c = false.
Proof. by_cases_on_char c. Qed.

Lemma lower_not_newline c : Py.is_lower c = true -> (c =? Py.newline)%char = false.
Proof. by_cases_on_char c. Qed.

Lemma space_not_upper c : Py.is_space c = true -> Py.is_upper c = false.
Proof. by_cases_on_char c. Qed.

Lemma first_line_no_newline s :
  Py.all_chars (fun c => negb (c =? Py.newline)%char) s = true -> Py.first_line s = s.
Proof.
  induction s as [|c s IH]; simpl; intros H; [reflexivity|].
  apply andb_true_iff in H as [Hc Hs]. apply negb_true_iff in Hc.
  now rewrite Hc, IH.
Qed.

Lemma append_assoc_string (a b c : string) : (a ++ b) ++ c = a ++ b ++ c.
Proof. induction a as [|x a IH]; simpl; [reflexivity | now rewrite IH]. Qed.

Lemma rstrip_app_no_space x y :
  y <> "" -> Py.all_chars (fun c => negb (Py.is_space c)) y = true ->
  Py.rstrip (x ++ y) = x ++ y.
Proof.
  intros Hne Hy. induction x as [|c x IH]; cbn [append].
  - now apply rstrip_no_space.
  - cbn [Py.rstrip]. rewrite IH. destruct (x ++ y) eqn:E; [|reflexivity].
    destruct x; [simpl in E; contradiction | discriminate].
Qed.

Lemma is_blanks_spec sep :
  is_blanks sep = true ->
  Py.head_is Py.is_space sep = true
  /\ Py.all_chars Py.is_space sep = true
  /\ Py.all_chars (fun c => negb (c =? Py.newline)%char) sep = true.
Proof.
  unfold is_blanks. intros H. apply andb_true_iff in H as [Hne H].
  assert (H1 : Py.all_chars Py.is_space sep = true).
  { eapply all_chars_weaken; [|exact H]. intros c Hc. now apply andb_true_iff in Hc. }
  assert (H2 : Py.all_chars (fun c => negb (c =? Py.newline)%char) sep = true).
  { eapply all_chars_weaken; [|exact H]. intros c Hc. now apply andb_true_iff in Hc. }
  repeat split; try assumption.
  destruct sep as [|c sep]; [discriminate|]. simpl in H1 |- *.
  now apply andb_true_iff in H1.
Qed.

Lemma is_capitalised_word_spec name :
  is_capitalised_word name = true ->
  exists c rest,
    name = String c rest /\ Py.is_upper c = true
    /\ Py.head_is Py.is_lower rest = true /\ Py.all_chars Py.is_lower rest = true.
Proof.
  destruct name as [|c rest]; [discriminate|]. simpl. intros H.
  apply andb_true_iff in H as [H Hlow]. apply andb_true_iff in H as [Hc Hne].
  exists c, rest. repeat split; try assumption.
  destruct rest as [|d rest]; [discriminate|]. simpl in Hlow |- *.
  now apply andb_true_iff in Hlow.
Qed.

Lemma legend_tail_blanks_word sep name :
  is_blanks sep = true -> is_capitalised_word name = true ->
  legend_tail (sep ++ name) = true.
Proof.
  intros Hsep Hname. apply is_blanks_spec in Hsep as (Hhead & Hall & _).
  apply is_capitalised_word_spec in Hname as (c & rest & -> & Hc & Hh & Hlow).
  unfold legend_tail. rewrite lstrip_spaces by assumption.
  cbn [Py.lstrip]. rewrite (upper_not_space c Hc), Hc, Hh, Hlow.
  destruct sep as [|s sep]; [discriminate|]. cbn [append Py.head_is] in *.
  now rewrite Hhead.
Qed.

(** A cell of the shape of a line of the key is stripped, on one line, and
    matches the legend pattern of [clean_manufacturer]. *)
Lemma key_line_shape code sep name :
  is_short_code code = true -> is_blanks sep = true -> is_capitalised_word name = true ->
  Py.strip (Py.first_line (code ++ sep ++ name)) = code ++ sep ++ name
  /\ legend_entry (code ++ sep ++ name) = true.
Proof.
  intros Hcode Hsep Hname.
  pose proof (legend_tail_blanks_word _ _ Hsep Hname) as Htail.
  pose proof (is_blanks_spec _ Hsep) as (Hhead & Hall & Hnl).
  destruct (is_capitalised_word_spec _ Hname) as (c & rest & Ename & Hc & Hh & Hlow).
  assert (Hname_ns : Py.all_chars (fun c => negb (Py.is_space c)) name = true).
  { rewrite Ename. cbn [Py.all_chars]. rewrite (upper_not_space c Hc). cbn [negb andb].
    eapply all_chars_weaken; [|exact Hlow]. intros d Hd. now rewrite (lower_not_space d Hd). }
  assert (Hname_nl : Py.all_chars (fun c => negb (c =? Py.newline)%char) name = true).
  { rewrite Ename. cbn [Py.all_chars]. rewrite (upper_not_newline c Hc). cbn [negb andb].
    eapply all_chars_weaken; [|exact Hlow]. intros d Hd. now rewrite (lower_not_newline d Hd). }
  assert (Hname_ne : name <> "") by (rewrite Ename; discriminate).
  assert (Hcode_nl : Py.all_chars (fun c => negb (c =? Py.newline)%char) code = true).
  { destruct code as [|a [|b [|? ?]]]; try discriminate; simpl in Hcode |- *.
    - now rewrite (upper_not_newline a Hcode).
    - apply andb_true_iff in Hcode as [Ha Hb].
      now rewrite (upper_not_newline a Ha), (upper_not_newline b Hb). }
  split.
  - rewrite first_line_no_newline
      by (rewrite !all_chars_app, Hcode_nl, Hnl, Hname_nl; reflexivity).
    unfold Py.strip. rewrite lstrip_fixed.
    + rewrite <- append_assoc_string. apply rstrip_app_no_space; assumption.
    + destruct code as [|a code]; [discriminate|]. cbn [append Py.head_is].
      apply upper_not_space. destruct code as [|b [|? ?]]; simpl in Hcode; try discriminate.
      * assumption.
      * now apply andb_true_iff in Hcode.
  - destruct code as [|a [|b [|? ?]]]; try discriminate; simpl in Hcode.
    + cbn [append legend_entry]. rewrite Hcode, Htail.
      destruct (sep ++ name); [reflexivity|]. now rewrite orb_true_r.
    + apply andb_true_iff in Hcode as [Ha Hb].
      cbn [append legend_entry]. now rewrite Ha, Hb, Htail.
Qed.

(** A first cell of the shape of a line of the key (one or two capitals,
    blanks, a capitalised word) is no manufacturer, whether its code is one
    of [LEGEND_PATTERNS] or not, and its row yields no entry. *)
Theorem key_line_yields_no_entry code sep name rest :
  is_short_code code = true ->
  is_blanks sep = true ->
  is_capitalised_word name = true ->
  clean_manufacturer (PStr (code ++ sep ++ name)) = None
  /\ process_data [PStr (code ++ sep ++ name) :: rest] = [].
Proof.
  intros Hcode Hsep Hname.
  destruct (key_line_shape _ _ _ Hcode Hsep Hname) as [Hstrip Hleg].
  assert (Hclean : clean_manufacturer (PStr (code ++ sep ++ name)) = None).
  { unfold clean_manufacturer. rewrite Hstrip, Hleg.
    destruct (_ =? ""); reflexivity. }
  split; [assumption|].
  unfold process_data, flat_map, process_row.
  destruct (Nat.ltb _ 8); [reflexivity|].
  change (cell (PStr (code ++ sep ++ name) :: rest) 0) with (PStr (code ++ sep ++ name)).
  destruct (is_legend _); [reflexivity|]. now rewrite Hclean.
Qed.

Lemma key_line_yields_no_entry_witness :
  clean_manufacturer (PStr ("ZZ" ++ "  " ++ "Zedland")) = None
  /\ process_data [PStr ("ZZ" ++ "  " ++ "Zedland") :: tl corolla_row] = [].
Proof.
  apply (key_line_yields_no_entry "ZZ" "  " "Zedland" (tl corolla_row)); reflexivity.
Defined.

(** ** Variants of a manufacturer name *)

Lemma prefix_empty s : String.prefix "" s = true.
Proof. destruct s; reflexivity. Qed.

Lemma prefix_app p t : String.prefix p (p ++ t) = true.
Proof.
  induction p as [|c p IH]; [apply prefix_empty|].
  cbn [append]. now rewrite prefix_cons.
Qed.

Lemma prefix_cons_inv c q d s :
  String.prefix (String c q) (String d s) = true -> c = d /\ String.prefix q s = true.
Proof. simpl. destruct (ascii_dec c d); [auto | discriminate]. Qed.

(** Two prefixes of one text: one is a prefix of the other. *)
Lemma prefix_comparable q p t :
  String.prefix q (p ++ t) = true ->
  String.prefix q p = true \/ String.prefix p q = true.
Proof.
  revert p. induction q as [|c q IH]; intros p H; [left; apply prefix_empty|].
  destruct p as [|d p]; [right; apply prefix_empty|].
  cbn [append] in H. apply prefix_cons_inv in H as [<- H].
  rewrite !prefix_cons. auto.
Qed.

Lemma normalized_variant_source items m n :
  normalized_variant items m = Some n ->
  exists q, In (q, n) items /\ String.prefix q m = true.
Proof.
  induction items as [|[pattern normalized] items IH]; [discriminate|].
  cbn [normalized_variant]. destruct (Py.startswith m pattern || (m =? pattern)) eqn:E.
  - intros [= <-]. exists pattern. split; [now left|].
    apply orb_true_iff in E as [E|E]; [exact E|].
    apply String.eqb_eq in E. subst. apply prefix_refl.
  - intros H. destruct (IH H) as (q & Hq & Hpre). exists q. split; [now right | assumption].
Qed.

Lemma normalized_variant_hit items m p v :
  In (p, v) items -> String.prefix p m = true ->
  exists n, normalized_variant items m = Some n.
Proof.
  induction items as [|[pattern normalized] items IH]; [contradiction|].
  intros [[= -> ->]|Hin] Hpre; cbn [normalized_variant].
  - unfold Py.startswith. rewrite Hpre. now exists v.
  - destruct (_ || _); [now exists normalized | auto].
Qed.

Lemma variants_agree_spec items p v q n :
  variants_agree items = true ->
  In (p, v) items -> In (q, n) items ->
  String.prefix q p = true \/ String.prefix p q = true ->
  v = n.
Proof.
  unfold variants_agree. intros H Hp Hq Hpre.
  rewrite forallb_forall in H. specialize (H _ Hp).
  rewrite forallb_forall in H. specialize (H _ Hq). cbn [fst snd] in H.
  apply orb_true_iff in H as [H|H]; [|now apply String.eqb_eq].
  apply negb_true_iff, orb_false_iff in H as [H1 H2].
  destruct Hpre; congruence.
Qed.

Lemma manufacturer_variants_agree : variants_agree MANUFACTURER_NORMALIZATION = true.
Proof. vm_compute. reflexivity. Qed.

Lemma manufacturer_variants_nonempty p v :
  In (p, v) MANUFACTURER_NORMALIZATION -> p <> "".
Proof.
  simpl. intros H.
  repeat (destruct H as [[= <- <-]|H]; [discriminate|]). contradiction.
Qed.

(** Any name that starts with a variant listed in
    [MANUFACTURER_NORMALIZATION] is folded to the canonical name of that
    variant, whatever follows it and wherever the variant stands in the
    table. *)
Theorem normalize_manufacturer_variant p v t :
  In (p, v) MANUFACTURER_NORMALIZATION ->
  normalize_manufacturer (Some (p ++ t)) = Some v.
Proof.
  intros Hin. unfold normalize_manufacturer.
  assert (Hne : (p ++ t =? "") = false).
  { destruct p; [now apply manufacturer_variants_nonempty in Hin | reflexivity]. }
  rewrite Hne.
  destruct (normalized_variant_hit _ (p ++ t) _ _ Hin (prefix_app p t)) as [n Hn].
  rewrite Hn. f_equal. symmetry.
  destruct (normalized_variant_source _ _ _ Hn) as (q & Hq & Hpre).
  eapply variants_agree_spec;
    [exact manufacturer_variants_agree | exact Hin | exact Hq |].
  now apply prefix_comparable with (t := t).
Qed.

Lemma normalize_manufacturer_variant_witness :
  normalize_manufacturer (Some ("Nissan North" ++ " America, Inc. (USA)")) = Some "Nissan".
Proof.
  apply (normalize_manufacturer_variant "Nissan North" "Nissan" " America, Inc. (USA)").
  vm_compute. tauto.
Defined.

Lemma canonical_manufacturers_fixed :
  forallb (fun item => match normalize_manufacturer (Some (snd item)) with
                       | Some n => n =? snd item
                       | None => false
                       end)
          MANUFACTURER_NORMALIZATION = true.
Proof. vm_compute. reflexivity. Qed.

(** Canonical names are stable: normalising a second time changes
    nothing. *)
Theorem normalize_manufacturer_idempotent m :
  normalize_manufacturer (normalize_manufacturer m) = normalize_manufacturer m.
Proof.
  destruct m as [m|]; [|reflexivity].
  remember (normalize_manufacturer (Some m)) as r eqn:Er.
  unfold normalize_manufacturer in Er.
  destruct (m =? "") eqn:Hm; [now subst|].
  destruct (normalized_variant MANUFACTURER_NORMALIZATION m) as [n|] eqn:Hn.
  - subst r. apply normalized_variant_value in Hn.
    apply in_map_iff in Hn as (item & <- & Hitem).
    pose proof canonical_manufacturers_fixed as H. rewrite forallb_forall in H.
    specialize (H item Hitem).
    destruct (normalize_manufacturer (Some (snd item))) as [n|]; [|discriminate].
    apply String.eqb_eq in H. now subst.
  - destruct (Py.startswith m "Subaru Subaru") eqn:Hs; [now subst|].
    destruct (Py.startswith m "Tesla Inc. Tesla") eqn:Ht; [now subst|].
    subst r. unfold normalize_manufacturer. now rewrite Hm, Hn, Hs, Ht.
Qed.

(** ** Codes of the table *)

Lemma country_codes_table : forallb code_resolves COUNTRY_MAPPING = true.
Proof. vm_compute. reflexivity. Qed.

(** A key of [COUNTRY_MAPPING], in any letter case, resolves to the value
    the table gives it, unless it is also the abbreviation of a state or a
    province: then it resolves to the United States or to Canada, and the
    entry of the table is never reached.  That holds for [CA], [DE], [ID],
    [IN], [AR], [SK] and [NL], and for no other key. *)
Theorem normalize_country_code k v s context :
  In (k, v) COUNTRY_MAPPING ->
  Py.upper s = k ->
  normalize_country (PStr s) context = Some (code_resolution k v)
  /\ (code_resolution k v <> v <-> In k shadowed_codes).
Proof.
  intros Hin Hs.
  pose proof country_codes_table as H. rewrite forallb_forall in H.
  specialize (H _ Hin). unfold code_resolves in H. cbn [fst snd] in H. cbv zeta in H.
  apply andb_true_iff in H as [H Hshadow]. apply andb_true_iff in H as [Hne Hres].
  apply negb_true_iff in Hne. split.
  - rewrite normalize_country_fold, Hs. cbv zeta. rewrite Hne.
    destruct (resolve_upper _) as [r|]; [|discriminate].
    apply String.eqb_eq in Hres. now subst.
  - apply Bool.eqb_prop in Hshadow. unfold Py.mem in Hshadow. split.
    + intros Hdiff. apply String.eqb_neq in Hdiff. rewrite Hdiff in Hshadow.
      symmetry in Hshadow. apply existsb_exists in Hshadow as (x & Hx & E).
      apply String.eqb_eq in E. now subst.
    + intros Hk Heq.
      assert (E : existsb (String.eqb k) shadowed_codes = true).
      { apply existsb_exists. exists k. split; [assumption | apply String.eqb_refl]. }
      rewrite E in Hshadow. apply negb_true_iff, String.eqb_neq in Hshadow. contradiction.
Qed.

Lemma normalize_country_code_witness :
  normalize_country (PStr "de") (PStr "Volvo") = Some (code_resolution "DE" "Denmark")
  /\ (code_resolution "DE" "Denmark" <> "Denmark" <-> In "DE" shadowed_codes).
Proof.
  apply (normalize_country_code "DE" "Denmark" "de").
  - vm_compute. tauto.
  - reflexivity.
Defined.

(** ** Notes in parentheses after a token *)

Lemma append_empty_r s : s ++ "" = s.
Proof. induction s as [|c s IH]; simpl; [reflexivity | now rewrite IH]. Qed.

Lemma rstrip_fixed_cons c t :
  Py.rstrip (String c t) = String c t ->
  (t = "" /\ Py.is_space c = false) \/ (t <> "" /\ Py.rstrip t = t).
Proof.
  cbn [Py.rstrip]. destruct (Py.rstrip t) as [|d r] eqn:E.
  - destruct (Py.is_space c); [discriminate|]. intros [= <-]. now left.
  - intros [= <-]. right. split; [discriminate | reflexivity].
Qed.

(** No match of the pattern starts inside a text without an opening
    parenthesis that ends in a character that is no white space. *)
Lemma paren_match_inside v rest :
  v <> "" -> Py.rstrip v = v ->
  Py.all_chars (fun c => negb (c =? "(")%char) v = true ->
  paren_match (v ++ rest) = None.
Proof.
  induction v as [|c t IH]; intros Hne Hfix Hno; [contradiction|].
  cbn [Py.all_chars] in Hno. apply andb_true_iff in Hno as [Hc Ht].
  apply negb_true_iff in Hc. cbn [append paren_match]. rewrite Hc.
  destruct (rstrip_fixed_cons _ _ Hfix) as [[-> Hsp]|[Hne' Hfix']].
  - now rewrite Hsp.
  - rewrite (IH Hne' Hfix' Ht). destruct (Py.is_space c); reflexivity.
Qed.

Lemma sub_paren_from_keep v rest :
  Py.rstrip v = v ->
  Py.all_chars (fun c => negb (c =? "(")%char) v = true ->
  sub_paren_from 0 (v ++ rest) = v ++ sub_paren_from 0 rest.
Proof.
  induction v as [|c t IH]; intros Hfix Hno; [reflexivity|].
  assert (Hm : paren_match (String c t ++ rest) = None)
    by (apply paren_match_inside; [discriminate | assumption | assumption]).
  cbn [Py.all_chars] in Hno. apply andb_true_iff in Hno as [_ Ht].
  cbn [append sub_paren_from]. cbn [append] in Hm. rewrite Hm. f_equal.
  destruct (rstrip_fixed_cons _ _ Hfix) as [[-> _]|[_ Hfix']]; [reflexivity | auto].
Qed.

Lemma paren_match_note sep body :
  Py.all_chars Py.is_space sep = true ->
  Py.all_chars (fun c => negb (c =? ")")%char) body = true ->
  paren_match (sep ++ "(" ++ body ++ ")")
  = Some (String.length (sep ++ "(" ++ body ++ ")")).
Proof.
  intros Hsep Hbody.
  assert (Hnote : paren_match ("(" ++ body ++ ")") = Some (String.length ("(" ++ body ++ ")"))).
  { cbn [append paren_match]. change (Py.is_space "(") with false.
    cbn [Ascii.eqb Bool.eqb]. rewrite (to_rparen_closing _ Hbody).
    cbn [option_map String.length]. now rewrite length_snoc. }
  generalize dependent ("(" ++ body ++ ")"). intros note Hnote.
  induction sep as [|c sep IH]; [exact Hnote|].
  cbn [Py.all_chars] in Hsep. apply andb_true_iff in Hsep as [Hc Hsep].
  cbn [append paren_match String.length]. rewrite Hc, (IH Hsep). reflexivity.
Qed.

Lemma sub_paren_from_note sep body :
  Py.all_chars Py.is_space sep = true ->
  Py.all_chars (fun c => negb (c =? ")")%char) body = true ->
  sub_paren_from 0 (sep ++ "(" ++ body ++ ")") = "".
Proof.
  intros Hsep Hbody. pose proof (paren_match_note _ _ Hsep Hbody) as Hm.
  destruct (sep ++ "(" ++ body ++ ")") as [|c t] eqn:E.
  - reflexivity.
  - cbn [sub_paren_from]. rewrite Hm. cbn [String.length]. apply sub_paren_from_all.
Qed.

Lemma strip_fixed_parts s :
  Py.strip s = s -> Py.head_is Py.is_space s = false /\ Py.rstrip s = s.
Proof.
  intros H. assert (Hh : Py.head_is Py.is_space s = false)
    by (rewrite <- H; apply strip_head_space).
  split; [assumption|]. unfold Py.strip in H. now rewrite (lstrip_fixed _ Hh) in H.
Qed.

(** ** Numerals *)

Lemma int_from_uint_acc d acc :
  Py.int_from (Z.pos acc) (NilEmpty.string_of_uint d) = Z.pos (Pos.of_uint_acc d acc).
Proof.
  revert acc.
  induction d as [|d IH|d IH|d IH|d IH|d IH|d IH|d IH|d IH|d IH|d IH]; intros acc;
    cbn [NilEmpty.string_of_uint Py.int_from Pos.of_uint_acc]; [reflexivity|..];
    rewrite <- IH; f_equal; vm_compute Py.digit_value; lia.
Qed.

Lemma int_from_uint d :
  Py.int_from 0 (NilEmpty.string_of_uint d) = Z.of_N (Pos.of_uint d).
Proof.
  induction d as [|d IH|d IH|d IH|d IH|d IH|d IH|d IH|d IH|d IH|d IH];
    cbn [NilEmpty.string_of_uint Py.int_from Pos.of_uint]; [reflexivity|exact IH|..];
    cbn [Z.of_N]; rewrite <- int_from_uint_acc; f_equal.
Qed.

Lemma uint_digits d : Py.all_chars Py.is_digit (NilEmpty.string_of_uint d) = true.
Proof.
  induction d as [|d IH|d IH|d IH|d IH|d IH|d IH|d IH|d IH|d IH|d IH];
    cbn [NilEmpty.string_of_uint Py.all_chars]; [reflexivity|..]; exact IH.
Qed.

(** The decimal numeral of an integer that is not negative is a run of
    digits that [int] reads back. *)
Lemma numeral_int n :
  (0 <= n)%Z -> is_digits (numeral n) = true /\ Py.int (numeral n) = n.
Proof.
  intros Hn. destruct n as [|p|p]; [split; reflexivity| |lia].
  unfold numeral, py_str, Z.to_int, NilZero.string_of_int, NilZero.string_of_uint.
  pose proof (DecimalPos.Unsigned.to_uint_nonnil p) as Hnil.
  pose proof (DecimalPos.Unsigned.of_to p) as Hof.
  destruct (Pos.to_uint p) as [|d|d|d|d|d|d|d|d|d|d] eqn:E; [contradiction|..];
    (split;
     [unfold is_digits; rewrite uint_digits; reflexivity
     |unfold Py.int; rewrite int_from_uint, Hof; reflexivity]).
Qed.

Lemma take_while_holds p s : Py.all_chars p (Py.take_while p s) = true.
Proof.
  induction s as [|c s IH]; [reflexivity|]. cbn [Py.take_while].
  destruct (p c) eqn:E; [|reflexivity]. cbn [Py.all_chars]. now rewrite E.
Qed.

Lemma alpha_upper_is_upper c : Py.is_alpha c = true -> Py.is_upper (Py.upper_char c) = true.
Proof. by_cases_on_char c. Qed.

Lemma upper_letters_are_capitals s :
  Py.all_chars Py.is_alpha s = true -> Py.all_chars Py.is_upper (Py.upper s) = true.
Proof.
  unfold Py.upper. induction s as [|c s IH]; cbn [Py.map_chars Py.all_chars]; [reflexivity|].
  intros H. apply andb_true_iff in H as [Hc Hs].
  now rewrite (alpha_upper_is_upper c Hc), IH.
Qed.

Lemma parse_country_percentage_code_full v pct code :
  parse_country_percentage v = (pct, Some code) ->
  code <> ""
  /\ Py.all_chars Py.is_upper code = true
  /\ exists n, pct = Some n /\ (0 <= n)%Z.
Proof.
  destruct v as [|s|z]; cbn [parse_country_percentage]; try discriminate.
  destruct (s =? ""); [discriminate|].
  destruct (Py.strip s =? ""); [discriminate|].
  unfold match_country_percentage.
  destruct (Py.take_while Py.is_digit _ =? ""); [discriminate|].
  destruct (Py.lstrip (Py.drop_while Py.is_digit _)) as [|c rest]; [discriminate|].
  destruct (c =? "%")%char eqn:Ec.
  - apply Ascii.eqb_eq in Ec. subst c.
    destruct (Py.take_while Py.is_alpha (Py.lstrip rest) =? "") eqn:El; [discriminate|].
    intros [= <- <-]. split; [|split].
    + destruct (Py.take_while Py.is_alpha (Py.lstrip rest)); [discriminate|].
      discriminate.
    + apply upper_letters_are_capitals, take_while_holds.
    + eexists. split; [reflexivity|]. apply int_from_nonneg. lia.
  - assert (Hno : forall (X : Type) (a b : X),
               match c with "%"%char => a | _ => b end = b).
    { intros X a b. destruct c as [[] [] [] [] [] [] [] []]; try reflexivity.
      discriminate. }
    rewrite Hno. discriminate.
Qed.

Lemma parse_country_percentage_code_parts v pct code :
  parse_country_percentage v = (pct, Some code) ->
  code <> "" /\ Py.all_chars Py.is_upper code = true.
Proof.
  intros H. destruct (parse_country_percentage_code_full _ _ _ H) as (H1 & H2 & _). auto.
Qed.

(** Whatever the cell, a country code that [parse_country_percentage]
    returns is a run of capital letters that is not empty, and it comes
    with a percentage that is not negative: there is no code without a
    percentage. *)
Theorem parse_country_percentage_code_shape v pct code :
  parse_country_percentage v = (pct, Some code) ->
  code <> ""
  /\ Py.all_chars Py.is_upper code = true
  /\ exists n, pct = Some n /\ (0 <= n)%Z.
Proof.
  intros H.
  destruct (parse_country_percentage_code_full _ _ _ H) as (Hne & Hup & n & Hn & Hpos).
  repeat split; try assumption. exists n. auto.
Qed.

Lemma parse_country_percentage_code_shape_witness :
  "H" <> ""
  /\ Py.all_chars Py.is_upper "H" = true
  /\ exists n, Some 26%Z = Some n /\ (0 <= n)%Z.
Proof.
  apply (parse_country_percentage_code_shape (PStr " 26% h (est.)") (Some 26%Z) "H").
  vm_compute. reflexivity.
Defined.

(** ** The frame as a whole *)

(** An engine cell that is nothing but a note in parentheses resolves to
    the empty text, which [process_data] takes for no result: the entry
    keeps the cell as it stands. *)
Theorem note_only_engine_is_kept r e body :
  process_row r = Appended e ->
  cell r 7 = PStr ("(" ++ body ++ ")") ->
  Py.all_chars (fun c => negb (c =? ")")%char) body = true ->
  normalize_country (cell r 7) PNone = Some ""
  /\ Engine_Source e = PStr ("(" ++ body ++ ")").
Proof.
  intros Hrow Hcell Hbody.
  destruct (appended_sources _ _ Hrow) as (_ & Heng & _).
  assert (Hnorm : normalize_country (cell r 7) PNone = Some "").
  { rewrite Hcell. unfold normalize_country.
    assert (Hstrip : Py.strip ("(" ++ body ++ ")") = "(" ++ body ++ ")").
    { unfold Py.strip. rewrite lstrip_fixed by reflexivity.
      change ("(" ++ body ++ ")") with (String "(" body ++ String ")" "").
      now apply rstrip_snoc. }
    rewrite Hstrip. unfold country_code_text.
    rewrite (sub_paren_note _ Hbody). reflexivity. }
  split; [assumption|]. now rewrite Heng, Hnorm, Hcell.
Qed.

Lemma note_only_engine_is_kept_witness :
  exists e,
    process_row (firstn 7 corolla_row ++ PStr ("(" ++ "AWD" ++ ")") :: skipn 8 corolla_row)%list
    = Appended e
    /\ Engine_Source e = PStr ("(" ++ "AWD" ++ ")").
Proof.
  eexists. split; [vm_compute; reflexivity|].
  apply (note_only_engine_is_kept
           (firstn 7 corolla_row ++ PStr ("(" ++ "AWD" ++ ")") :: skipn 8 corolla_row)%list
           _ "AWD"); reflexivity.
Defined.

(** ** The link of a report *)

(** ** Flags and bins of the front end *)

Lemma flags_table :
  forallb (fun name => (name =? "Great Britain")
                       || match Py.lookup name COUNTRY_FLAGS with
                          | Some _ => true
                          | None => false
                          end)
          canonical_countries = true.
Proof. vm_compute. reflexivity. Qed.

(** Every canonical country name has a flag of its own in [COUNTRY_FLAGS],
    which [get_flag] returns, except [Great Britain], which
    [normalize_country] can return and which gets the flag of last
    resort. *)
Theorem canonical_countries_have_flags name :
  In name canonical_countries ->
  (name <> "Great Britain" ->
   exists flag, Py.lookup name COUNTRY_FLAGS = Some flag /\ get_flag (Some name) = flag)
  /\ Py.lookup "Great Britain" COUNTRY_FLAGS = None
  /\ normalize_country (PStr "Great Britain") PNone = Some "Great Britain".
Proof.
  intros Hin. split; [|split; vm_compute; reflexivity].
  intros Hgb. pose proof flags_table as H. rewrite forallb_forall in H.
  specialize (H name Hin). apply orb_true_iff in H as [H|H].
  - apply String.eqb_eq in H. contradiction.
  - destruct (Py.lookup name COUNTRY_FLAGS) as [flag|] eqn:E; [|discriminate].
    exists flag. split; [reflexivity|]. unfold get_flag. rewrite E.
    destruct (name =? "") eqn:Hn; [|reflexivity].
    apply String.eqb_eq in Hn. subst. vm_compute in E. discriminate.
Qed.

Lemma canonical_countries_have_flags_witness :
  ("Serbia" <> "Great Britain" ->
   exists flag, Py.lookup "Serbia" COUNTRY_FLAGS = Some flag /\ get_flag (Some "Serbia") = flag)
  /\ Py.lookup "Great Britain" COUNTRY_FLAGS = None
  /\ normalize_country (PStr "Great Britain") PNone = Some "Great Britain".
Proof.
  apply (canonical_countries_have_flags "Serbia"). vm_compute. tauto.
Defined.

(** An entry of the frame is missing from the chart of content levels
    exactly when its US/Canada percentage is above 100: every other
    percentage falls into one of the five bins. *)
Theorem content_bin_of_entries raw_data e :
  In e (process_data raw_data) ->
  (content_bin (Pct_US_Canada e) = None <-> (100 < Pct_US_Canada e)%Z).
Proof.
  intros H. apply process_data_origin in H as [_ H].
  destruct (appended_fields _ _ H) as (_ & _ & _ & _ & _ & Hus & _).
  pose proof (parse_us_canada_percentage_nonneg (cell (Raw e) 4)) as Hnn.
  rewrite <- Hus in Hnn. unfold content_bin.
  destruct (Z.ltb_spec (Pct_US_Canada e) 0); [lia|].
  repeat match goal with
         | |- context [(?a <=? ?b)%Z] => destruct (Z.leb_spec a b)
         end; split; intros; try discriminate; try lia; reflexivity.
Qed.

Lemma content_bin_of_entries_witness :
  content_bin 150 = None <-> (100 < 150)%Z.
Proof.
  change 150%Z with (Pct_US_Canada
    {| Year := PInt 2023; Manufacturer := Some "Toyota"; Car_Line := PStr "Corolla";
       Pct_US_Canada := 150; Primary_Country := "Germany"; Primary_Pct := 120;
       Secondary_Country := "Japan"; Secondary_Pct := 101;
       Engine_Source := PStr "Germany"; Transmission_Source := PStr "Japan";
       Assembly_Country := PStr "United States"; Raw := over_row |}).
  apply (content_bin_of_entries [over_row]). vm_compute. left. reflexivity.
Defined.

(** ** Country columns *)

Lemma lookup_value k d v : Py.lookup k d = Some v -> In v (map snd d).
Proof.
  induction d as [|[k' v'] d IH]; [discriminate|]. cbn [Py.lookup].
  destruct (k =? k'); [intros [= <-]; now left | intros H; right; auto].
Qed.

Lemma country_values_nonempty v : In v (map snd COUNTRY_MAPPING) -> v <> "".
Proof.
  assert (H : forallb (fun x => negb (x =? "")) (map snd COUNTRY_MAPPING) = true)
    by (vm_compute; reflexivity).
  rewrite forallb_forall in H. intros Hin E. subst.
  specialize (H _ Hin). discriminate.
Qed.

Lemma title_nonempty s : s <> "" -> Py.title s <> "".
Proof. destruct s; [contradiction | discriminate]. Qed.

Lemma mem_in s xs : Py.mem s xs = true -> In s xs.
Proof.
  unfold Py.mem. intros H. apply existsb_exists in H as (x & Hx & E).
  apply String.eqb_eq in E. now subst.
Qed.

Lemma region_of_words_nonempty ws r : region_of_words ws = Some r -> r <> "".
Proof.
  induction ws as [|w ws IH]; [discriminate|]. cbn [region_of_words].
  destruct (Py.mem w US_STATES); [intros [= <-]; discriminate|].
  destruct (Py.mem w CA_PROVINCES); [intros [= <-]; discriminate|].
  destruct (Py.mem w GERMAN_CITIES); [intros [= <-]; discriminate | exact IH].
Qed.

Lemma country_prefix_nonempty x r : country_prefix x = Some r -> r <> "".
Proof.
  unfold country_prefix.
  repeat match goal with
         | |- context [if ?b then _ else _] => destruct b
         end; intros [= <-]; discriminate.
Qed.

Lemma trailing_country_nonempty ws r : trailing_country ws = Some r -> r <> "".
Proof.
  unfold trailing_country. destruct (Nat.leb 2 (List.length ws)); [|discriminate].
  destruct (Py.lookup _ COUNTRY_MAPPING) as [v|] eqn:E.
  - intros [= <-]. eapply country_values_nonempty, lookup_value, E.
  - destruct (Py.mem _ two_word_countries) eqn:M; [|discriminate].
    intros [= <-]. apply title_nonempty. apply mem_in in M.
    simpl in M. intros Eq. rewrite Eq in M.
    repeat destruct M as [M|M]; try discriminate. contradiction.
Qed.

Lemma known_country_in_nonempty cs x r :
  (forall c, In c cs -> c <> "") -> known_country_in cs x = Some r -> r <> "".
Proof.
  induction cs as [|c cs IH]; intros Hcs; [discriminate|]. cbn [known_country_in].
  destruct (Py.contains c x).
  - intros [= <-]. apply title_nonempty, Hcs. now left.
  - apply IH. intros c' Hc'. apply Hcs. now right.
Qed.

Lemma known_countries_nonempty c : In c known_countries -> c <> "".
Proof.
  assert (H : forallb (fun x => negb (x =? "")) known_countries = true)
    by (vm_compute; reflexivity).
  rewrite forallb_forall in H. intros Hin E. subst.
  specialize (H _ Hin). discriminate.
Qed.

(** No rule of [normalize_country] returns the empty text. *)
Lemma resolve_upper_nonempty x r : resolve_upper x = Some r -> r <> "".
Proof.
  unfold resolve_upper.
  destruct (region_of_words _) as [r1|] eqn:E1;
    [intros [= <-]; eapply region_of_words_nonempty, E1|].
  destruct (country_prefix x) as [r2|] eqn:E2;
    [intros [= <-]; eapply country_prefix_nonempty, E2|].
  destruct (trailing_country _) as [r3|] eqn:E3;
    [intros [= <-]; eapply trailing_country_nonempty, E3|].
  destruct (Py.lookup x COUNTRY_MAPPING) as [r4|] eqn:E4;
    [intros [= <-]; eapply country_values_nonempty, lookup_value, E4|].
  apply known_country_in_nonempty. exact known_countries_nonempty.
Qed.

Lemma upper_not_lparen c : Py.is_upper c = true -> (c =? "(")%char = false.
Proof. by_cases_on_char c. Qed.

(** A code of capital letters resolves to a text that is not empty. *)
Lemma normalize_country_of_code code context :
  code <> "" -> Py.all_chars Py.is_upper code = true ->
  exists r, normalize_country (PStr code) context = Some r /\ r <> "".
Proof.
  intros Hne Hup.
  assert (Hns : Py.all_chars (fun c => negb (Py.is_space c)) code = true).
  { eapply all_chars_weaken; [|exact Hup]. intros c Hc. now rewrite (upper_not_space c Hc). }
  assert (Hnp : Py.all_chars (fun c => negb (c =? "(")%char) code = true).
  { eapply all_chars_weaken; [|exact Hup]. intros c Hc. now rewrite (upper_not_lparen c Hc). }
  assert (Hnl : Py.has_newline code = false).
  { clear Hne Hns Hnp. induction code as [|c t IH]; [reflexivity|].
    cbn [Py.all_chars] in Hup. apply andb_true_iff in Hup as [Hc Ht].
    cbn [Py.has_newline]. now rewrite (upper_not_newline c Hc), IH. }
  pose proof (strip_no_space _ Hns) as Hstrip.
  destruct (strip_fixed_parts _ Hstrip) as [_ Hfix].
  assert (Hsub : sub_paren code = code).
  { unfold sub_paren. pose proof (sub_paren_from_keep code "" Hfix Hnp) as K.
    cbn [sub_paren_from] in K. now rewrite !append_empty_r in K. }
  assert (Htext : country_code_text code = code).
  { unfold country_code_text. now rewrite Hsub, Hstrip, Hnl. }
  unfold normalize_country. rewrite Hstrip, Htext.
  destruct (code =? "") eqn:E; [apply String.eqb_eq in E; contradiction|].
  destruct (resolve_upper (Py.upper code)) as [r|] eqn:Er.
  - exists r. split; [reflexivity | eapply resolve_upper_nonempty, Er].
  - destruct (Nat.ltb 3 (String.length code)).
    + exists (Py.title code). split; [reflexivity | now apply title_nonempty].
    + exists code. auto.
Qed.

(** The country of a percentage column is blank exactly when the cell
    carries no country code: a code that is there always resolves to some
    text, be it a country of the table or the code itself. *)
Theorem country_blank_iff_no_code raw_data e :
  In e (process_data raw_data) ->
  (Primary_Country e = "" <-> snd (parse_country_percentage (cell (Raw e) 5)) = None)
  /\ (Secondary_Country e = "" <-> snd (parse_country_percentage (cell (Raw e) 6)) = None).
Proof.
  intros H. apply process_data_origin in H as [_ H].
  destruct (appended_fields _ _ H) as (_ & _ & _ & _ & _ & _ & _ & _ & Hp & Hs).
  assert (Hcol : forall v,
    or_empty match snd (parse_country_percentage v) with
             | Some c => if c =? "" then None else normalize_country (PStr c) PNone
             | None => None
             end = ""
    <-> snd (parse_country_percentage v) = None).
  { intros v. destruct (parse_country_percentage v) as [pct [code|]] eqn:E; cbn [snd].
    - destruct (parse_country_percentage_code_parts _ _ _ E) as [Hne Hup].
      destruct (normalize_country_of_code code PNone Hne Hup) as (r & Hr & Hrne).
      destruct (code =? "") eqn:Ec; [apply String.eqb_eq in Ec; contradiction|].
      rewrite Hr. cbn [or_empty]. split; [contradiction | discriminate].
    - split; reflexivity. }
  rewrite Hp, Hs. split; apply Hcol.
Qed.

Lemma country_blank_iff_no_code_witness :
  exists e,
    process_data [bare_percent_row] = [e]
    /\ (Primary_Country e = ""
        <-> snd (parse_country_percentage (cell (Raw e) 5)) = None)
    /\ (Secondary_Country e = ""
        <-> snd (parse_country_percentage (cell (Raw e) 6)) = None).
Proof.
  eexists. split; [vm_compute; reflexivity|].
  apply (country_blank_iff_no_code [bare_percent_row]). vm_compute. left. reflexivity.
Defined.

(** * Cells as they are written *)

(** ** Stripping and the first line *)

Lemma rstrip_cons c t :
  Py.rstrip (String c t)
  = match Py.rstrip t with
    | EmptyString => if Py.is_space c then EmptyString else String c EmptyString
    | r => String c r
    end.
Proof. reflexivity. Qed.

Lemma first_line_cons c t :
  Py.first_line (String c t)
  = if (c =? Py.newline)%char then EmptyString else String c (Py.first_line t).
Proof. reflexivity. Qed.

Lemma take_while_cons p c t :
  Py.take_while p (String c t) = if p c then String c (Py.take_while p t) else EmptyString.
Proof. reflexivity. Qed.

Lemma rstrip_cons_visible c t :
  Py.is_space c = false -> Py.rstrip (String c t) = String c (Py.rstrip t).
Proof.
  intros Hc. rewrite rstrip_cons. destruct (Py.rstrip t); [now rewrite Hc | reflexivity].
Qed.

(** Nothing is stripped to the left of a character that is no white
    space. *)
Lemma rstrip_after a c t :
  Py.is_space c = false -> Py.rstrip (a ++ String c t) = a ++ String c (Py.rstrip t).
Proof.
  intros Hc. induction a as [|x a IH]; cbn [append].
  - now apply rstrip_cons_visible.
  - rewrite rstrip_cons, IH. destruct (a ++ String c (Py.rstrip t)) eqn:E; [|reflexivity].
    destruct a; discriminate.
Qed.

Lemma first_line_app a t :
  Py.has_newline a = false -> Py.first_line (a ++ t) = a ++ Py.first_line t.
Proof.
  induction a as [|c a IH]; cbn [append Py.has_newline]; [reflexivity|].
  intros H. apply orb_false_iff in H as [Hc Ha].
  now rewrite first_line_cons, Hc, IH.
Qed.


Lemma first_line_head_space s :
  Py.head_is Py.is_space s = false -> Py.head_is Py.is_space (Py.first_line s) = false.
Proof.
  destruct s as [|c s]; [reflexivity|]. rewrite first_line_cons. cbn [Py.head_is].
  intros Hc. destruct (c =? Py.newline)%char; [reflexivity | exact Hc].
Qed.

(** Stripping the right end before the first line is taken changes
    nothing once the line is stripped. *)
Lemma rstrip_first_line_rstrip s :
  Py.rstrip (Py.first_line (Py.rstrip s)) = Py.rstrip (Py.first_line s).
Proof.
  induction s as [|c t IH]; [reflexivity|].
  rewrite (first_line_cons c t), (rstrip_cons c t).
  destruct (c =? Py.newline)%char eqn:Hn.
  - destruct (Py.rstrip t) as [|d r]; [destruct (Py.is_space c)|];
      rewrite ?(first_line_cons c), ?Hn; reflexivity.
  - destruct (Py.rstrip t) as [|d r] eqn:E.
    + cbn [Py.first_line Py.rstrip] in IH.
      rewrite (rstrip_cons c (Py.first_line t)), <- IH.
      destruct (Py.is_space c) eqn:Hs; [reflexivity|].
      rewrite first_line_cons, Hn. cbn [Py.first_line]. rewrite rstrip_cons.
      cbn [Py.rstrip]. now rewrite Hs.
    + rewrite (first_line_cons c (String d r)), Hn.
      rewrite (rstrip_cons c (Py.first_line (String d r))),
              (rstrip_cons c (Py.first_line t)), IH.
      reflexivity.
Qed.

(** What [parse_country_percentage] matches its pattern on. *)
Lemma strip_first_line_strip s :
  Py.strip (Py.first_line (Py.strip s)) = Py.rstrip (Py.first_line (Py.lstrip s)).
Proof.
  unfold Py.strip. rewrite (lstrip_fixed (Py.first_line (Py.rstrip (Py.lstrip s)))).
  - apply rstrip_first_line_rstrip.
  - apply first_line_head_space, rstrip_head_space, lstrip_head_space.
Qed.

Lemma take_while_rstrip p s :
  (forall c, p c = true -> Py.is_space c = false) ->
  Py.take_while p (Py.rstrip s) = Py.take_while p s.
Proof.
  intros Hp. induction s as [|c t IH]; [reflexivity|].
  rewrite rstrip_cons, (take_while_cons p c t).
  destruct (p c) eqn:Hc.
  - destruct (Py.rstrip t) as [|d r] eqn:E.
    + rewrite (Hp c Hc), take_while_cons, Hc, <- IH. reflexivity.
    + now rewrite take_while_cons, Hc, IH.
  - destruct (Py.rstrip t) as [|d r]; [destruct (Py.is_space c)|];
      rewrite ?take_while_cons, ?Hc; reflexivity.
Qed.

(** ** Characters of the vocabulary *)

Lemma visible_not_space c : is_visible c = true -> Py.is_space c = false.
Proof.
  unfold is_visible. intros H. apply andb_true_iff in H as [_ H].
  now apply negb_true_iff.
Qed.

Lemma not_space_not_newline c : Py.is_space c = false -> (c =? Py.newline)%char = false.
Proof.
  intros H. destruct (c =? Py.newline)%char eqn:E; [|reflexivity].
  now rewrite (newline_is_space c E) in H.
Qed.

Lemma space_not_digit c : Py.is_space c = true -> Py.is_digit c = false.
Proof.
  intros H. destruct (Py.is_digit c) eqn:E; [|reflexivity].
  now rewrite (digit_not_space c E) in H.
Qed.

Lemma digits_no_space ds :
  Py.all_chars Py.is_digit ds = true ->
  Py.all_chars (fun c => negb (Py.is_space c)) ds = true.
Proof.
  apply all_chars_weaken. intros c Hc. now rewrite (digit_not_space c Hc).
Qed.

Lemma digits_no_newline ds :
  Py.all_chars Py.is_digit ds = true -> Py.has_newline ds = false.
Proof.
  induction ds as [|c ds IH]; cbn [Py.all_chars Py.has_newline]; [reflexivity|].
  intros H. apply andb_true_iff in H as [Hc Hds].
  now rewrite (not_space_not_newline c (digit_not_space c Hc)), IH.
Qed.

Lemma is_blank_run_spec s :
  is_blank_run s = true ->
  Py.all_chars Py.is_space s = true /\ Py.has_newline s = false.
Proof.
  unfold is_blank_run.
  induction s as [|c s IH]; cbn [Py.all_chars Py.has_newline]; [auto|].
  intros H. apply andb_true_iff in H as [Hc Hs]. apply andb_true_iff in Hc as [Hsp Hnl].
  apply negb_true_iff in Hnl. destruct (IH Hs) as [H1 H2]. now rewrite Hsp, Hnl, H1, H2.
Qed.

Lemma has_newline_app a b :
  Py.has_newline (a ++ b) = Py.has_newline a || Py.has_newline b.
Proof.
  induction a as [|c a IH]; cbn [append Py.has_newline]; [reflexivity|].
  now rewrite IH, orb_assoc.
Qed.

Lemma head_is_app_nonempty p s t :
  (s =? "") = false -> Py.head_is p (s ++ t) = Py.head_is p s.
Proof. destruct s; [discriminate | reflexivity]. Qed.

Lemma digits_head_space ds :
  is_digits ds = true -> Py.head_is Py.is_space ds = false.
Proof.
  intros H. apply is_digits_spec in H as [_ H].
  destruct ds as [|c ds]; [reflexivity|]. cbn [Py.all_chars Py.head_is] in *.
  apply andb_true_iff in H as [Hc _]. now apply digit_not_space.
Qed.

Lemma app_nonempty_l pre s t : (s =? "") = false -> (pre ++ s ++ t =? "") = false.
Proof. destruct pre; [|reflexivity]. destruct s; [discriminate | reflexivity]. Qed.

Lemma drop_while_all p s : Py.all_chars p s = true -> Py.drop_while p s = "".
Proof.
  induction s as [|c s IH]; cbn [Py.all_chars Py.drop_while]; [reflexivity|].
  intros H. apply andb_true_iff in H as [Hc Hs]. rewrite Hc. auto.
Qed.

(** ** The US/Canada column *)

(** The digits of a text are read as the Standard Library reads them. *)
Lemma uint_of_digit c d :
  Py.is_digit c = true -> exists d', uint_of_char c (Some d) = Some d'.
Proof.
  intros H. destruct c as [[] [] [] [] [] [] [] []]; try discriminate H;
    eexists; reflexivity.
Qed.

Lemma digits_uint ds :
  Py.all_chars Py.is_digit ds = true -> exists d, NilEmpty.uint_of_string ds = Some d.
Proof.
  induction ds as [|c ds IH]; [now exists Decimal.Nil|].
  cbn [Py.all_chars NilEmpty.uint_of_string]. intros H.
  apply andb_true_iff in H as [Hc Hds]. destruct (IH Hds) as [d ->].
  destruct (uint_of_digit c d Hc) as [d' Hd']. now exists d'.
Qed.

Lemma int_decimal_value ds : is_digits ds = true -> Py.int ds = decimal_value ds.
Proof.
  intros H. apply is_digits_spec in H as [_ Hall].
  destruct (digits_uint ds Hall) as [d Hd]. unfold decimal_value, Py.int. rewrite Hd.
  rewrite <- (NilEmpty.sus _ _ Hd). apply int_from_uint.
Qed.

Lemma is_integer_text_spec ds :
  is_integer_text ds = true -> is_digits ds = true /\ Py.int ds = decimal_value ds.
Proof.
  unfold is_integer_text. intros H. apply andb_true_iff in H as [H _].
  split; [assumption | now apply int_decimal_value].
Qed.

(** White space, a run of digits, and then no further digit: the integer
    read is the one the run writes. *)
Lemma parse_us_canada_percentage_run pre ds rest :
  Py.all_chars Py.is_space pre = true -> is_digits ds = true ->
  no_digit_follows rest = true ->
  parse_us_canada_percentage (PStr (pre ++ ds ++ rest)) = Py.int ds.
Proof.
  intros Hpre Hds Hrest.
  destruct (is_digits_spec _ Hds) as [Hne Hall].
  assert (Hstop : Py.head_is Py.is_digit rest = false).
  { destruct rest as [|c rest]; [reflexivity|].
    unfold no_digit_follows, ends_or_starts in Hrest.
    apply andb_true_iff in Hrest as [_ H]. now apply negb_true_iff in H. }
  unfold parse_us_canada_percentage. rewrite (app_nonempty_l pre _ rest Hne).
  unfold Py.strip. rewrite (lstrip_spaces pre _ Hpre), lstrip_fixed.
  - rewrite take_while_rstrip by apply digit_not_space.
    now rewrite (take_while_app _ _ _ Hall Hstop), Hne.
  - rewrite (head_is_app_nonempty _ _ _ Hne). now apply digits_head_space.
Qed.

(** White space and then no integer: the default. *)
Lemma parse_us_canada_percentage_no_integer pre rest :
  Py.all_chars Py.is_space pre = true -> no_integer_leads rest = true ->
  parse_us_canada_percentage (PStr (pre ++ rest)) = 0%Z.
Proof.
  intros Hpre Hrest. unfold parse_us_canada_percentage.
  destruct (pre ++ rest =? ""); [reflexivity|].
  unfold Py.strip. rewrite (lstrip_spaces pre _ Hpre).
  destruct rest as [|c rest]; [reflexivity|].
  unfold no_integer_leads, ends_or_starts in Hrest.
  apply andb_true_iff in Hrest as [Hv Hd]. apply negb_true_iff in Hd.
  pose proof (visible_not_space c Hv) as Hsp.
  rewrite lstrip_fixed by exact Hsp.
  now rewrite (rstrip_cons_visible c rest Hsp), take_while_cons, Hd.
Qed.

(** ** The country columns *)

(** The pattern on digits, white space, a percent sign and a tail. *)
Lemma match_country_percentage_blank ds mid u :
  is_digits ds = true -> Py.all_chars Py.is_space mid = true ->
  match_country_percentage ((ds ++ mid) ++ String "%" u)
  = Some (ds, let letters := Py.take_while Py.is_alpha (Py.lstrip u) in
              if letters =? "" then None else Some letters).
Proof.
  intros Hds Hmid. apply is_digits_spec in Hds as [Hne Hall].
  assert (Hstop : Py.head_is Py.is_digit (mid ++ String "%" u) = false).
  { destruct mid as [|c mid]; [reflexivity|]. cbn [Py.all_chars] in Hmid.
    apply andb_true_iff in Hmid as [Hc _]. now apply space_not_digit. }
  unfold match_country_percentage. rewrite append_assoc_string.
  rewrite (take_while_app _ _ _ Hall Hstop), (drop_while_app _ _ _ Hall Hstop), Hne.
  rewrite (lstrip_spaces mid _ Hmid).
  change (Py.lstrip (String "%" u)) with (String "%" u). reflexivity.
Qed.

(** The pattern on digits, white space and a character that is no percent
    sign. *)
Lemma match_country_percentage_not_percent ds mid c u :
  is_digits ds = true -> Py.all_chars Py.is_space mid = true ->
  Py.is_space c = false -> Py.is_digit c = false -> (c =? "%")%char = false ->
  match_country_percentage ((ds ++ mid) ++ String c u) = None.
Proof.
  intros Hds Hmid Hsp Hdig Hpc. apply is_digits_spec in Hds as [Hne Hall].
  assert (Hstop : Py.head_is Py.is_digit (mid ++ String c u) = false).
  { destruct mid as [|d mid]; [exact Hdig|]. cbn [Py.all_chars] in Hmid.
    apply andb_true_iff in Hmid as [Hd _]. now apply space_not_digit. }
  unfold match_country_percentage. rewrite append_assoc_string.
  rewrite (take_while_app _ _ _ Hall Hstop), (drop_while_app _ _ _ Hall Hstop), Hne.
  rewrite (lstrip_spaces mid _ Hmid), lstrip_fixed by exact Hsp.
  clear - Hpc. destruct c as [[] [] [] [] [] [] [] []]; try reflexivity. discriminate.
Qed.

(** The text a cell is matched on, when the cell starts, after white
    space, with a numeral. *)
Lemma lstrip_numeral pre ds rest :
  Py.all_chars Py.is_space pre = true -> is_digits ds = true ->
  Py.lstrip (pre ++ ds ++ rest) = ds ++ rest.
Proof.
  intros Hpre Hds. rewrite (lstrip_spaces pre _ Hpre). apply lstrip_fixed.
  destruct (is_digits_spec _ Hds) as [Hne _].
  rewrite (head_is_app_nonempty _ _ _ Hne). now apply digits_head_space.
Qed.

(** White space, a run of digits, white space within the line and a
    percent sign: the percentage is the integer of the run, whatever
    follows; the code is the run of letters that follows on the same line,
    if any. *)
Lemma parse_country_percentage_run pre ds mid rest :
  Py.all_chars Py.is_space pre = true -> is_digits ds = true -> is_blank_run mid = true ->
  parse_country_percentage (PStr (pre ++ ds ++ mid ++ "%" ++ rest))
  = (Some (Py.int ds),
     let letters := Py.take_while Py.is_alpha (Py.lstrip (Py.rstrip (Py.first_line rest))) in
     if letters =? "" then None else Some (Py.upper letters)).
Proof.
  intros Hpre Hds Hmid.
  destruct (is_digits_spec _ Hds) as [Hne Hall].
  destruct (is_blank_run_spec _ Hmid) as [Hsp Hnl].
  unfold parse_country_percentage.
  rewrite (app_nonempty_l pre _ _ Hne), strip_first_line_strip.
  unfold Py.strip. rewrite (lstrip_numeral pre _ _ Hpre Hds).
  change ("%" ++ rest) with (String "%" rest). rewrite <- append_assoc_string.
  rewrite (rstrip_after _ "%" rest eq_refl), app_nonempty_r.
  rewrite first_line_app
    by (rewrite has_newline_app, (digits_no_newline _ Hall), Hnl; reflexivity).
  rewrite (first_line_cons "%" rest). change ("%" =? Py.newline)%char with false. cbv iota.
  rewrite (rstrip_after _ "%" _ eq_refl).
  rewrite (match_country_percentage_blank _ _ _ Hds Hsp). cbv zeta.
  destruct (Py.take_while Py.is_alpha (Py.lstrip (Py.rstrip (Py.first_line rest))) =? "");
    reflexivity.
Qed.

(** White space and then no integer: no percentage and no code. *)
Lemma parse_country_percentage_no_integer pre rest :
  Py.all_chars Py.is_space pre = true -> no_integer_leads rest = true ->
  parse_country_percentage (PStr (pre ++ rest)) = (None, None).
Proof.
  intros Hpre Hrest. unfold parse_country_percentage.
  destruct (pre ++ rest =? ""); [reflexivity|].
  destruct (Py.strip (pre ++ rest) =? ""); [reflexivity|].
  rewrite strip_first_line_strip, (lstrip_spaces pre _ Hpre).
  destruct rest as [|c rest]; [reflexivity|].
  unfold no_integer_leads, ends_or_starts in Hrest.
  apply andb_true_iff in Hrest as [Hv Hd]. apply negb_true_iff in Hd.
  pose proof (visible_not_space c Hv) as Hsp.
  rewrite lstrip_fixed by exact Hsp.
  rewrite first_line_cons, (not_space_not_newline c Hsp), (rstrip_cons_visible c _ Hsp).
  unfold match_country_percentage. now rewrite take_while_cons, Hd.
Qed.

(** A run of digits that no percent sign follows on its line: no
    percentage and no code. *)
Lemma parse_country_percentage_no_percent pre ds mid rest :
  Py.all_chars Py.is_space pre = true -> is_digits ds = true -> is_blank_run mid = true ->
  no_percent_follows rest = true ->
  parse_country_percentage (PStr (pre ++ ds ++ mid ++ rest)) = (None, None).
Proof.
  intros Hpre Hds Hmid Hrest.
  destruct (is_digits_spec _ Hds) as [Hne Hall].
  destruct (is_blank_run_spec _ Hmid) as [Hsp Hnl].
  assert (Hbare : match_country_percentage ds = None).
  { unfold match_country_percentage.
    now rewrite (take_while_all _ _ Hall), (drop_while_all _ _ Hall), Hne. }
  assert (Hline : Py.rstrip (ds ++ mid) = ds).
  { rewrite (rstrip_spaces _ _ Hsp). apply rstrip_no_space, digits_no_space, Hall. }
  unfold parse_country_percentage. rewrite (app_nonempty_l pre _ _ Hne).
  destruct (Py.strip _ =? ""); [reflexivity|].
  rewrite strip_first_line_strip, (lstrip_numeral pre _ _ Hpre Hds).
  rewrite <- append_assoc_string.
  rewrite first_line_app
    by (rewrite has_newline_app, (digits_no_newline _ Hall), Hnl; reflexivity).
  destruct rest as [|c rest].
  - cbn [Py.first_line]. now rewrite append_empty_r, Hline, Hbare.
  - unfold no_percent_follows, ends_or_starts in Hrest. rewrite first_line_cons.
    destruct (c =? Py.newline)%char eqn:Hc.
    + now rewrite append_empty_r, Hline, Hbare.
    + cbn [orb] in Hrest. apply andb_true_iff in Hrest as [Hrest Hpc].
      apply andb_true_iff in Hrest as [Hv Hd].
      apply negb_true_iff in Hpc. apply negb_true_iff in Hd.
      pose proof (visible_not_space c Hv) as Hvs.
      rewrite (rstrip_after _ c _ Hvs).
      now rewrite (match_country_percentage_not_percent _ _ _ _ Hds Hsp Hvs Hd Hpc).
Qed.

(** After white space within the line, the line ends or goes on with a
    character that is no letter: no code is read. *)
Lemma no_code_after post tail :
  is_blank_run post = true -> no_code_follows tail = true ->
  Py.take_while Py.is_alpha (Py.lstrip (Py.rstrip (Py.first_line (post ++ tail)))) = "".
Proof.
  intros Hpost Htail. destruct (is_blank_run_spec _ Hpost) as [Hsp Hnl].
  rewrite (first_line_app _ _ Hnl).
  assert (Hend : Py.take_while Py.is_alpha (Py.lstrip (Py.rstrip (post ++ ""))) = "").
  { now rewrite append_empty_r, (rstrip_all_space _ Hsp). }
  destruct tail as [|c tail]; [exact Hend|].
  unfold no_code_follows, ends_or_starts in Htail. rewrite first_line_cons.
  destruct (c =? Py.newline)%char eqn:Hc; [exact Hend|].
  cbn [orb] in Htail. apply andb_true_iff in Htail as [Hv Ha].
  apply negb_true_iff in Ha. pose proof (visible_not_space c Hv) as Hvs.
  rewrite (rstrip_after _ c _ Hvs), (lstrip_spaces post _ Hsp).
  rewrite lstrip_fixed by exact Hvs. now rewrite take_while_cons, Ha.
Qed.

(** ** The car line *)





(** C1, amended: the three percentages of every entry are integers that
    are not negative, and they are what the cells hold, above 100 or not:
    column 4 gives the integer that leads it, columns 5 and 6 the integer
    that leads them when a percent sign follows it; a cell that is no text,
    that no integer leads, or, in columns 5 and 6, whose integer has no
    percent sign after it, gives 0. *)
Theorem percentages_as_written raw_data e :
  In e (process_data raw_data) ->
  (0 <= Pct_US_Canada e /\ 0 <= Primary_Pct e /\ 0 <= Secondary_Pct e)%Z
  /\ (forall pre ds rest,
        Py.all_chars Py.is_space pre = true -> is_integer_text ds = true ->
        no_digit_follows rest = true ->
        cell (Raw e) 4 = PStr (pre ++ ds ++ rest) -> Pct_US_Canada e = decimal_value ds)
  /\ (forall pre ds mid rest,
        Py.all_chars Py.is_space pre = true -> is_integer_text ds = true ->
        is_blank_run mid = true ->
        (cell (Raw e) 5 = PStr (pre ++ ds ++ mid ++ "%" ++ rest) ->
         Primary_Pct e = decimal_value ds)
        /\ (cell (Raw e) 6 = PStr (pre ++ ds ++ mid ++ "%" ++ rest) ->
            Secondary_Pct e = decimal_value ds))
  /\ (forall pre rest,
        Py.all_chars Py.is_space pre = true -> no_integer_leads rest = true ->
        (cell (Raw e) 4 = PStr (pre ++ rest) -> Pct_US_Canada e = 0%Z)
        /\ (cell (Raw e) 5 = PStr (pre ++ rest) -> Primary_Pct e = 0%Z)
        /\ (cell (Raw e) 6 = PStr (pre ++ rest) -> Secondary_Pct e = 0%Z))
  /\ (forall pre ds mid rest,
        Py.all_chars Py.is_space pre = true -> is_integer_text ds = true ->
        is_blank_run mid = true -> no_percent_follows rest = true ->
        (cell (Raw e) 5 = PStr (pre ++ ds ++ mid ++ rest) -> Primary_Pct e = 0%Z)
        /\ (cell (Raw e) 6 = PStr (pre ++ ds ++ mid ++ rest) -> Secondary_Pct e = 0%Z))
  /\ ((forall s, cell (Raw e) 4 <> PStr s) -> Pct_US_Canada e = 0%Z)
  /\ ((forall s, cell (Raw e) 5 <> PStr s) -> Primary_Pct e = 0%Z)
  /\ ((forall s, cell (Raw e) 6 <> PStr s) -> Secondary_Pct e = 0%Z).
Proof.
  intros H. apply process_data_origin in H as [_ H].
  destruct (appended_fields _ _ H) as (_ & _ & _ & _ & _ & Hus & Hp & Hs & _).
  assert (Hnone : forall v, (forall s, v <> PStr s) ->
            parse_us_canada_percentage v = 0%Z
            /\ or_zero (fst (parse_country_percentage v)) = 0%Z).
  { intros [|s|z] Hv; [split; reflexivity | now destruct (Hv s) | split; reflexivity]. }
  split; [|split; [|split; [|split; [|split; [|split; [|split]]]]]].
  - rewrite Hus, Hp, Hs.
    auto using parse_us_canada_percentage_nonneg, parse_country_percentage_nonneg.
  - intros pre ds rest Hpre Hds Hrest Hcell.
    destruct (is_integer_text_spec _ Hds) as [Hrun <-].
    rewrite Hus, Hcell. now apply parse_us_canada_percentage_run.
  - intros pre ds mid rest Hpre Hds Hmid.
    destruct (is_integer_text_spec _ Hds) as [Hrun <-].
    split; intros Hcell; [rewrite Hp | rewrite Hs];
      now rewrite Hcell, (parse_country_percentage_run _ _ _ _ Hpre Hrun Hmid).
  - intros pre rest Hpre Hrest.
    split; [|split]; intros Hcell; [rewrite Hus | rewrite Hp | rewrite Hs]; rewrite Hcell.
    + now apply parse_us_canada_percentage_no_integer.
    + now rewrite (parse_country_percentage_no_integer _ _ Hpre Hrest).
    + now rewrite (parse_country_percentage_no_integer _ _ Hpre Hrest).
  - intros pre ds mid rest Hpre Hds Hmid Hrest.
    destruct (is_integer_text_spec _ Hds) as [Hrun _].
    split; intros Hcell; [rewrite Hp | rewrite Hs];
      now rewrite Hcell, (parse_country_percentage_no_percent _ _ _ _ Hpre Hrun Hmid Hrest).
  - intros Hv. rewrite Hus. apply (Hnone _ Hv).
  - intros Hv. rewrite Hp. apply (Hnone _ Hv).
  - intros Hv. rewrite Hs. apply (Hnone _ Hv).
Qed.

Lemma percentages_as_written_witness :
  exists e,
    process_data [over_row] = [e]
    /\ Pct_US_Canada e = 150%Z /\ Primary_Pct e = 120%Z /\ Secondary_Pct e = 101%Z.
Proof.
  eexists. split; [vm_compute; reflexivity|].
  destruct (percentages_as_written [over_row] _ (or_introl eq_refl))
    as (_ & H4 & H56 & _).
  split; [|split].
  - apply (H4 "" "150" "%"); reflexivity.
  - apply (H56 "" "120" "" "G"); reflexivity.
  - apply (H56 "" "101" "" "J"); reflexivity.
Defined.





(** C10: a cell that holds an integer and a percent sign with no country
    code after it, written with or without white space around the integer
    and the sign, with or without a remark, puts the integer into the
    percentage and the empty string into the country of the same rank. *)
Theorem bare_percentage_has_no_country r e pre ds mid post tail :
  process_row r = Appended e ->
  Py.all_chars Py.is_space pre = true ->
  is_integer_text ds = true ->
  is_blank_run mid = true ->
  is_blank_run post = true ->
  no_code_follows tail = true ->
  (cell r 5 = PStr (pre ++ ds ++ mid ++ "%" ++ post ++ tail) ->
   Primary_Pct e = decimal_value ds /\ Primary_Country e = "")
  /\ (cell r 6 = PStr (pre ++ ds ++ mid ++ "%" ++ post ++ tail) ->
      Secondary_Pct e = decimal_value ds /\ Secondary_Country e = "").
Proof.
  intros Hrow Hpre Hds Hmid Hpost Htail.
  destruct (is_integer_text_spec _ Hds) as [Hrun <-].
  destruct (appended_fields _ _ Hrow) as (_ & _ & _ & _ & _ & _ & Hp & Hs & Hpc & Hsc).
  assert (Hparse : parse_country_percentage
                     (PStr (pre ++ ds ++ mid ++ "%" ++ post ++ tail))
                   = (Some (Py.int ds), None)).
  { rewrite (parse_country_percentage_run _ _ _ _ Hpre Hrun Hmid). cbv zeta.
    now rewrite (no_code_after _ _ Hpost Htail). }
  split; intros Hcell.
  - rewrite Hp, Hpc, Hcell, Hparse. split; reflexivity.
  - rewrite Hs, Hsc, Hcell, Hparse. split; reflexivity.
Qed.

Lemma bare_percentage_has_no_country_witness :
  exists e,
    process_row padded_percent_row = Appended e
    /\ (Primary_Pct e = 15%Z /\ Primary_Country e = "")
    /\ (Secondary_Pct e = 15%Z /\ Secondary_Country e = "").
Proof.
  eexists. split; [vm_compute; reflexivity|].
  split.
  - apply (bare_percentage_has_no_country padded_percent_row _ " " "15" " " " " "(est.)");
      reflexivity.
  - apply (bare_percentage_has_no_country padded_percent_row _ "" "15" "" " " "");
      reflexivity.
Defined.

(** * Further properties within the scope of the embedding *)

(** An ASCII cell with no leading integer gives the percentage 0. *)
Theorem parse_us_canada_percentage_default s :
  is_ascii s = true ->
  Py.head_is Py.is_digit (Py.strip s) = false ->
  parse_us_canada_percentage (PStr s) = 0%Z.
Proof.
  intros _ H. unfold parse_us_canada_percentage.
  destruct (s =? ""); [reflexivity|].
  destruct (Py.strip s) as [|c t]; [reflexivity|].
  simpl in H. now rewrite take_while_cons, H.
Qed.

Lemma parse_us_canada_percentage_default_witness :
  parse_us_canada_percentage (PStr " n/a ") = 0%Z.
Proof. apply (parse_us_canada_percentage_default " n/a "); reflexivity. Defined.

(** The docstring's [G (AWD)] and [US (2.0L)]: a note in parentheses after
    an ASCII token, with or without white space before it, changes nothing:
    the token resolves as it does alone. *)
Theorem normalize_country_ignores_note s sep body context :
  is_ascii s = true ->
  s <> "" ->
  Py.strip s = s ->
  Py.all_chars (fun c => negb (c =? "(")%char) s = true ->
  Py.all_chars Py.is_space sep = true ->
  Py.all_chars (fun c => negb (c =? ")")%char) body = true ->
  normalize_country (PStr (s ++ sep ++ "(" ++ body ++ ")")) context
  = normalize_country (PStr s) context.
Proof.
  intros _ Hne Hstrip Hno Hsep Hbody.
  destruct (strip_fixed_parts _ Hstrip) as [Hhead Hfix].
  assert (Hwhole : Py.strip (s ++ sep ++ "(" ++ body ++ ")") = s ++ sep ++ "(" ++ body ++ ")").
  { unfold Py.strip. rewrite lstrip_fixed.
    - assert (Eq : s ++ sep ++ "(" ++ body ++ ")" = (s ++ sep ++ "(" ++ body) ++ ")")
        by (now rewrite !append_assoc_string).
      rewrite Eq. apply rstrip_snoc. reflexivity.
    - destruct s; [contradiction | exact Hhead]. }
  unfold normalize_country. rewrite Hwhole, Hstrip.
  assert (E : (s ++ sep ++ "(" ++ body ++ ")" =? "") = (s =? "")).
  { destruct s; [contradiction | reflexivity]. }
  rewrite E. destruct (s =? ""); [reflexivity|].
  assert (Hcode : country_code_text (s ++ sep ++ "(" ++ body ++ ")") = country_code_text s).
  { unfold country_code_text, sub_paren.
    pose proof (sub_paren_from_keep s "" Hfix Hno) as K.
    cbn [sub_paren_from] in K. rewrite !append_empty_r in K.
    rewrite (sub_paren_from_keep s _ Hfix Hno), (sub_paren_from_note _ _ Hsep Hbody).
    now rewrite append_empty_r, K. }
  now rewrite Hcode.
Qed.

Lemma normalize_country_ignores_note_witness :
  normalize_country (PStr ("US" ++ " " ++ "(" ++ "2.0L" ++ ")")) (PStr "Ford")
  = normalize_country (PStr "US") (PStr "Ford").
Proof.
  apply (normalize_country_ignores_note "US" " " "2.0L"); try reflexivity. discriminate.
Defined.

(** Writing a percentage and reading it back: for every integer [n] that
    is not negative and has no more digits than [int] accepts, the cell
    [n%] gives [n] in the US/Canada column, and the cell [n%C] gives [n]
    and the code [C] in upper case in a country column, for every code [C]
    of letters; 100 is no bound. *)
Theorem percentage_round_trip n C :
  (0 <= n)%Z ->
  String.length (numeral n) <= int_max_str_digits ->
  is_letters C = true ->
  parse_us_canada_percentage (PStr (numeral n ++ "%")) = n
  /\ parse_country_percentage (PStr (numeral n ++ "%" ++ C)) = (Some n, Some (Py.upper C)).
Proof.
  intros Hn _ HC. destruct (numeral_int n Hn) as [Hds Hint].
  destruct (is_digits_spec _ Hds) as [Hne Hall].
  destruct (is_letters_spec C HC) as (HCne & HCall & _).
  split.
  - rewrite <- Hint at 2.
    apply (parse_us_canada_percentage_run "" (numeral n) "%"); [reflexivity | assumption | reflexivity].
  - rewrite parse_country_percentage_digits; [|assumption|].
    + cbv zeta. now rewrite (take_while_all _ _ HCall), HCne, Hint.
    + eapply all_chars_weaken; [|exact HCall].
      intros c Hc. now rewrite (alpha_not_space c Hc).
Qed.

Lemma percentage_round_trip_witness :
  parse_us_canada_percentage (PStr (numeral 2500 ++ "%")) = 2500%Z
  /\ parse_country_percentage (PStr (numeral 2500 ++ "%" ++ "jpn"))
     = (Some 2500%Z, Some (Py.upper "jpn")).
Proof.
  apply (percentage_round_trip 2500 "jpn"); [lia | vm_compute; lia | reflexivity].
Defined.



(** ** The link of a report *)

Lemma report_link_first pdf_links :
  report_link pdf_links = hd_error (filter is_report_href pdf_links).
Proof.
  induction pdf_links as [|h rest IH]; [reflexivity|].
  cbn [report_link filter]. unfold is_report_href at 1.
  destruct (Py.contains "AALA" h || Py.contains "Alphabetical" h); [reflexivity | exact IH].
Qed.

(** The function on a page that was read: [urljoin] of the link chosen. *)
Lemma get_pdf_url_chosen urljoin hrefs :
  get_pdf_url_from_landing_page urljoin (Some hrefs)
  = match chosen_link hrefs with
    | Some href => urljoin "https://www.nhtsa.gov" href
    | None => None
    end.
Proof.
  cbn [get_pdf_url_from_landing_page]. unfold chosen_link. rewrite report_link_first.
  destruct (filter is_report_href (filter is_pdf_href hrefs)) as [|h rest]; cbn [hd_error].
  - destruct (filter is_pdf_href hrefs); reflexivity.
  - reflexivity.
Qed.

Lemma chosen_link_found hrefs href :
  chosen_link hrefs = Some href ->
  In href hrefs
  /\ is_pdf_href href = true
  /\ forall h, In h hrefs -> is_pdf_href h = true ->
       is_report_href h = true -> is_report_href href = true.
Proof.
  unfold chosen_link.
  destruct (filter is_report_href (filter is_pdf_href hrefs)) as [|k rest] eqn:K.
  - destruct (filter is_pdf_href hrefs) as [|first others] eqn:F; [discriminate|].
    intros [= <-].
    assert (Hfirst : In first (filter is_pdf_href hrefs)) by (rewrite F; now left).
    apply filter_In in Hfirst as [Hin Hpdf]. repeat split; try assumption.
    intros h Hh Hhpdf Hkey.
    assert (Hk : In h (filter is_report_href (filter is_pdf_href hrefs)))
      by (apply filter_In; split; [now apply filter_In | assumption]).
    rewrite F, K in Hk. contradiction.
  - intros [= <-].
    assert (Hk : In k (filter is_report_href (filter is_pdf_href hrefs)))
      by (rewrite K; now left).
    apply filter_In in Hk as [Hk Hkey]. apply filter_In in Hk as [Hin Hpdf]. auto.
Qed.

Lemma chosen_link_none hrefs :
  chosen_link hrefs = None <-> forall h, In h hrefs -> is_pdf_href h = false.
Proof.
  unfold chosen_link. split.
  - destruct (filter is_report_href (filter is_pdf_href hrefs)); [|discriminate].
    destruct (filter is_pdf_href hrefs) as [|first rest] eqn:F; [|discriminate].
    intros _ h Hh. destruct (is_pdf_href h) eqn:E; [|reflexivity].
    assert (Hin : In h (filter is_pdf_href hrefs)) by now apply filter_In.
    rewrite F in Hin. contradiction.
  - intros H.
    assert (F : filter is_pdf_href hrefs = []).
    { destruct (filter is_pdf_href hrefs) as [|first rest] eqn:F; [reflexivity|].
      assert (Hin : In first (filter is_pdf_href hrefs)) by (rewrite F; now left).
      apply filter_In in Hin as [Hin Hpdf]. rewrite (H _ Hin) in Hpdf. discriminate. }
    now rewrite F.
Qed.

(** The address returned for a page that was read is what [urljoin] makes
    of an [href] of the page that ends in [.pdf]; when some such [href]
    names the report ([AALA] or [Alphabetical]), the one chosen does, even
    if another PDF link stands before it on the page. *)
Theorem get_pdf_url_choice urljoin hrefs url :
  get_pdf_url_from_landing_page urljoin (Some hrefs) = Some url ->
  exists href,
    In href hrefs
    /\ is_pdf_href href = true
    /\ urljoin "https://www.nhtsa.gov" href = Some url
    /\ forall h, In h hrefs -> is_pdf_href h = true ->
         (Py.contains "AALA" h || Py.contains "Alphabetical" h) = true ->
         (Py.contains "AALA" href || Py.contains "Alphabetical" href) = true.
Proof.
  rewrite get_pdf_url_chosen.
  destruct (chosen_link hrefs) as [href|] eqn:E; [|discriminate].
  intros Hurl. destruct (chosen_link_found _ _ E) as (Hin & Hpdf & Hkey).
  exists href. split; [assumption|]. split; [assumption|]. split; [assumption|].
  exact Hkey.
Qed.

Lemma get_pdf_url_choice_witness :
  exists href,
    In href ["/about"; "/files/key.pdf"; "/files/MY2024-AALA-Alphabetical.pdf"]
    /\ is_pdf_href href = true
    /\ (fun _ h => Some h) "https://www.nhtsa.gov" href
       = Some "/files/MY2024-AALA-Alphabetical.pdf"
    /\ forall h,
         In h ["/about"; "/files/key.pdf"; "/files/MY2024-AALA-Alphabetical.pdf"] ->
         is_pdf_href h = true ->
         (Py.contains "AALA" h || Py.contains "Alphabetical" h) = true ->
         (Py.contains "AALA" href || Py.contains "Alphabetical" href) = true.
Proof.
  apply (get_pdf_url_choice (fun _ h => Some h)
           ["/about"; "/files/key.pdf"; "/files/MY2024-AALA-Alphabetical.pdf"]).
  vm_compute. reflexivity.
Defined.

(** No address is returned exactly when the page could not be read, none
    of its links ends in [.pdf], or [urljoin] raises on the link chosen:
    the first PDF link that names the report, and the first PDF link when
    none does. *)
Theorem get_pdf_url_none urljoin page :
  get_pdf_url_from_landing_page urljoin page = None
  <-> page = None
      \/ exists hrefs,
           page = Some hrefs
           /\ ((forall h, In h hrefs -> is_pdf_href h = false)
               \/ exists href,
                    chosen_link hrefs = Some href
                    /\ urljoin "https://www.nhtsa.gov" href = None).
Proof.
  destruct page as [hrefs|]; [|split; [now left | reflexivity]].
  rewrite get_pdf_url_chosen. split.
  - intros H. right. exists hrefs. split; [reflexivity|].
    destruct (chosen_link hrefs) as [href|] eqn:E.
    + right. exists href. auto.
    + left. now apply chosen_link_none.
  - intros [H|(hrefs' & [= <-] & [H|(href & Hc & Hu)])]; [discriminate| |].
    + apply chosen_link_none in H. now rewrite H.
    + now rewrite Hc.
Qed.

Lemma get_pdf_url_none_witness :
  get_pdf_url_from_landing_page
    (fun _ href => if Py.contains "[" href then None else Some href)
    (Some ["/about"; "/files/key.pdf"; "/files/AALA[2024.pdf"])
  = None.
Proof.
  apply (proj2 (get_pdf_url_none _ _)). right. eexists. split; [reflexivity|].
  right. exists "/files/AALA[2024.pdf". split; reflexivity.
Defined.
